(** * The Coqui TTS server (coqui_server.py): request handling, the two
      synthesis providers and the temp artifact store.

    The development follows the Python source function by function.  The
    Flask request, the file system under [temp_dir], the loaded TTS model and
    Python's [float] and [hash] are the program's collaborators: they appear
    as explicit inputs (a request record, a world state, a model handle, a
    runtime interface).  Exceptions are values of [exn]; every effectful
    function runs in a small state-and-exception monad, in which the state
    survives a raised exception, as it does in Python. *)

From Stdlib Require Import ZArith QArith List Ascii String DecimalString Lia.
From stdpp Require Import gmap strings.

Set Warnings "-register-all".
Local Open Scope string_scope.
Local Open Scope list_scope.
Local Open Scope Z_scope.

(** ** Exceptions and results *)

(** A Python exception, identified by what [str(e)] prints. *)
Record exn := Exception { str : string }.

Inductive result (A : Type) : Type :=
| Ok (a : A)
| Raise (e : exn).
Arguments Ok {A} a.
Arguments Raise {A} e.

(** ** The Python runtime the server relies on *)

(** [float] is Python's float type; the conversions are the cases of the
    builtin [float()], which raises OverflowError on an int that is too
    large and ValueError on a string that is not a number.  [hash] is the
    builtin string hash of the running process. *)
Class PyRuntime := {
  float : Type;
  float_of_int : Z -> result float;
  float_of_str : string -> result float;
  float_of_bool : bool -> float;
  float_is_zero : float -> bool;
  one_point_zero : float;
  hash : string -> Z
}.

(** ** JSON bodies as Python values *)

Section Values.
Context `{PyRuntime}.

(** What [request.get_json()] can return: [PNone] is both Python's [None]
    and JSON's null; a dict is kept as its list of items. *)
Inductive pyval : Type :=
| PNone
| PBool (b : bool)
| PInt (z : Z)
| PFloat (f : float)
| PStr (s : string)
| PList (l : list pyval)
| PDict (d : list (string * pyval)).

(** [bool(v)]: the truth value used by [not data]. *)
Definition truthy (v : pyval) : bool :=
  match v with
  | PNone => false
  | PBool b => b
  | PInt z => negb (z =? 0)
  | PFloat f => negb (float_is_zero f)
  | PStr s => negb (String.eqb s "")
  | PList l => match l with [] => false | _ => true end
  | PDict d => match d with [] => false | _ => true end
  end.

Fixpoint dict_lookup (k : string) (d : list (string * pyval)) : option pyval :=
  match d with
  | [] => None
  | (k', v) :: d' => if String.eqb k k' then Some v else dict_lookup k d'
  end.

Definition type_name (v : pyval) : string :=
  match v with
  | PNone => "NoneType"
  | PBool _ => "bool"
  | PInt _ => "int"
  | PFloat _ => "float"
  | PStr _ => "str"
  | PList _ => "list"
  | PDict _ => "dict"
  end.

(** [k in v] for a string [k]: key membership in a dict, element membership
    in a list, substring test in a string, TypeError elsewhere. *)
Definition py_contains (k : string) (v : pyval) : result bool :=
  match v with
  | PDict d => Ok (match dict_lookup k d with Some _ => true | None => false end)
  | PList l =>
      Ok (existsb (fun x => match x with PStr s => String.eqb s k | _ => false end) l)
  | PStr s => Ok (match index 0 k s with Some _ => true | None => false end)
  | _ => Raise (Exception ("argument of type '" +:+ type_name v +:+ "' is not iterable"))
  end.

(** [v[k]] for a string [k]. *)
Definition py_getitem (v : pyval) (k : string) : result pyval :=
  match v with
  | PDict d =>
      match dict_lookup k d with
      | Some x => Ok x
      | None => Raise (Exception ("'" +:+ k +:+ "'"))
      end
  | PList _ => Raise (Exception "list indices must be integers or slices, not str")
  | PStr _ => Raise (Exception "string indices must be integers, not 'str'")
  | _ => Raise (Exception ("'" +:+ type_name v +:+ "' object is not subscriptable"))
  end.

(** [v.get(k, default)]: only a dict has the method. *)
Definition py_get (v : pyval) (k : string) (default : pyval) : result pyval :=
  match v with
  | PDict d => Ok (match dict_lookup k d with Some x => x | None => default end)
  | _ => Raise (Exception ("'" +:+ type_name v +:+ "' object has no attribute 'get'"))
  end.

(** Characters are code points below 256; these are the ones [str.isspace]
    accepts in that range. *)
Definition isspace (c : ascii) : bool :=
  let n := N_of_ascii c in
  ((9 <=? n) && (n <=? 13) || (28 <=? n) && (n <=? 32) || (n =? 133) || (n =? 160))%N.

Fixpoint lstrip_chars (l : list ascii) : list ascii :=
  match l with
  | c :: l' => if isspace c then lstrip_chars l' else l
  | [] => []
  end.

Definition strip (s : string) : string :=
  string_of_list_ascii
    (rev (lstrip_chars (rev (lstrip_chars (list_ascii_of_string s))))).

(** [v.strip()]: only a string has the method. *)
Definition py_strip (v : pyval) : result string :=
  match v with
  | PStr s => Ok (strip s)
  | _ => Raise (Exception ("'" +:+ type_name v +:+ "' object has no attribute 'strip'"))
  end.

(** The builtin [float(v)]. *)
Definition py_float (v : pyval) : result float :=
  match v with
  | PBool b => Ok (float_of_bool b)
  | PInt z => float_of_int z
  | PFloat f => Ok f
  | PStr s => float_of_str s
  | _ =>
      Raise (Exception ("float() argument must be a string or a real number, not '"
                        +:+ type_name v +:+ "'"))
  end.

End Values.

(** ** WAV files and the temp artifact store *)

(** A WAV file as the [wave] module sees it: the three header parameters
    and the raw frame bytes. *)
Record Wav := {
  nchannels : Z;
  sampwidth : Z;
  framerate : Z;
  frames : list Byte.byte
}.

(** What [wave.open(path, 'w')] leaves before any setter is called. *)
Definition empty_wav : Wav :=
  {| nchannels := 0; sampwidth := 0; framerate := 0; frames := [] |}.

Definition byte_of_Z (z : Z) : Byte.byte :=
  match Byte.of_N (Z.to_N (z mod 256)) with
  | Some b => b
  | None => Byte.x00
  end.

(** [struct.pack('<h', v)]: two bytes, little-endian, two's complement. *)
Definition struct_pack_h (v : Z) : result (list Byte.byte) :=
  if (-32768 <=? v) && (v <=? 32767)
  then Ok [byte_of_Z (v mod 65536); byte_of_Z ((v mod 65536) / 256)]
  else Raise (Exception "'h' format requires -32768 <= number <= 32767").

(** Reading back: the number of frames and the 16-bit samples. *)
Definition getnframes (w : Wav) : Z :=
  Z.of_nat (length (frames w)) / (nchannels w * sampwidth w).

Definition unpack_h (lo hi : Byte.byte) : Z :=
  let u := Z.of_N (Byte.to_N lo) + 256 * Z.of_N (Byte.to_N hi) in
  if u <? 32768 then u else u - 65536.

Fixpoint samples16 (data : list Byte.byte) : list Z :=
  match data with
  | lo :: hi :: rest => unpack_h lo hi :: samples16 rest
  | _ => []
  end.

Section Server.
Context `{PyRuntime}.

(** A call of one of the two providers, recorded in the order made. *)
Inductive call : Type :=
| CallReal (text : string) (speed : float)
| CallMock (text : string).

(** The world the server acts on: the files on disk, which paths refuse to
    be opened for writing (and with which error), and the log of provider
    calls. *)
Record World := {
  files : gmap string Wav;
  write_error : string -> option exn;
  calls : list call
}.

Definition set_files (w : World) (fs : gmap string Wav) : World :=
  {| files := fs; write_error := write_error w; calls := calls w |}.

(** *** The state-and-exception monad *)

Definition M (A : Type) : Type := World -> result A * World.

Definition ret {A} (a : A) : M A := fun w => (Ok a, w).

Definition raise {A} (e : exn) : M A := fun w => (Raise e, w).

Definition bind {A B} (m : M A) (k : A -> M B) : M B :=
  fun w =>
    match m w with
    | (Ok a, w') => k a w'
    | (Raise e, w') => (Raise e, w')
    end.

Definition lift {A} (r : result A) : M A := fun w => (r, w).

(** [try: m except Exception as e: h e] *)
Definition try_except {A} (m : M A) (h : exn -> M A) : M A :=
  fun w =>
    match m w with
    | (Ok a, w') => (Ok a, w')
    | (Raise e, w') => h e w'
    end.

Notation "x <- m ;; k" := (bind m (fun x => k))
  (at level 100, m at next level, right associativity).
Notation "m ;;; k" := (bind m (fun _ => k))
  (at level 100, right associativity).

Definition record_call (c : call) : M unit :=
  fun w => (Ok tt, {| files := files w; write_error := write_error w;
                      calls := calls w ++ [c] |}).

(** *** File operations *)

(** [wave.open(path, 'w')]: fails when the path cannot be opened for
    writing, else creates or truncates the file. *)
Definition wave_open_w (path : string) : M unit :=
  fun w =>
    match write_error w path with
    | Some e => (Raise e, w)
    | None => (Ok tt, set_files w (<[path := empty_wav]> (files w)))
    end.

(** A method of the open [Wave_write] object, acting on the file. *)
Definition wave_update (path : string) (f : Wav -> Wav) : M unit :=
  fun w =>
    match files w !! path with
    | Some wav => (Ok tt, set_files w (<[path := f wav]> (files w)))
    | None => (Ok tt, w)
    end.

Definition setnchannels (path : string) (n : Z) : M unit :=
  wave_update path (fun wav =>
    {| nchannels := n; sampwidth := sampwidth wav;
       framerate := framerate wav; frames := frames wav |}).

Definition setsampwidth (path : string) (n : Z) : M unit :=
  wave_update path (fun wav =>
    {| nchannels := nchannels wav; sampwidth := n;
       framerate := framerate wav; frames := frames wav |}).

Definition setframerate (path : string) (n : Z) : M unit :=
  wave_update path (fun wav =>
    {| nchannels := nchannels wav; sampwidth := sampwidth wav;
       framerate := n; frames := frames wav |}).

Definition writeframes (path : string) (data : list Byte.byte) : M unit :=
  wave_update path (fun wav =>
    {| nchannels := nchannels wav; sampwidth := sampwidth wav;
       framerate := framerate wav; frames := frames wav ++ data |}).

(** [for _ in range(n): body] *)
Fixpoint for_range (n : nat) (body : M unit) : M unit :=
  match n with
  | O => ret tt
  | S n' => body ;;; for_range n' body
  end.

(** [os.path.exists(path)] *)
Definition path_exists (path : string) : M bool :=
  fun w => (Ok (bool_decide (is_Some (files w !! path))), w).

Fixpoint endswith_slash (s : string) : bool :=
  match s with
  | EmptyString => false
  | String c EmptyString => Ascii.eqb c "/"%char
  | String _ s' => endswith_slash s'
  end.

(** [os.path.join(a, b)] (posixpath). *)
Definition path_join (a b : string) : string :=
  if String.prefix "/" b then b
  else if String.eqb a "" || endswith_slash a then a +:+ b
  else a +:+ "/" +:+ b.

(** [str(z)] for an int, as the f-string prints it. *)
Definition str_of_int (z : Z) : string :=
  NilZero.string_of_int (Z.to_int z).


(** ** The server object *)

(** The loaded model handle.  [tts_to_file] synthesizes a waveform for the
    text at the given speed, or raises. *)
Record TTS := { synthesize : string -> float -> result Wav }.

Record CoquiTTSServer := {
  port : Z;
  host : string;
  temp_dir : string;
  tts_model : option TTS
}.

(** [CoquiTTSServer.__init__]: [TTS_AVAILABLE] tells whether the import of
    the library succeeded, [TTS_ctor] is the library's constructor, called
    with the model name, and [mkdtemp] is the directory the call of
    [tempfile.mkdtemp()] returned. *)
Definition init (TTS_AVAILABLE : bool) (TTS_ctor : string -> result TTS)
    (mkdtemp : string) : CoquiTTSServer :=
  {| port := 5002;
     host := "0.0.0.0";
     temp_dir := mkdtemp;
     tts_model :=
       if TTS_AVAILABLE then
         match TTS_ctor "tts_models/en/ljspeech/fast_pitch" with
         | Ok m => Some m
         | Raise _ =>
             match TTS_ctor "tts_models/en/ljspeech/tacotron2-DDC" with
             | Ok m => Some m
             | Raise _ => None
             end
         end
       else None |}.

(** *** GET /health and GET /api/voices *)

Record Health := {
  status : string;
  model_loaded : bool;
  cuda_available : bool;
  version : string
}.

Definition health_check (self : CoquiTTSServer) : Health :=
  {| status := "healthy";
     model_loaded := match tts_model self with Some _ => true | None => false end;
     cuda_available := false;
     version := match tts_model self with
                | Some _ => "1.0.0-real"
                | None => "1.0.0-mock"
                end |}.

Record Voices := {
  model : string;
  loaded : bool;
  supported_languages : list string
}.

Definition list_voices (self : CoquiTTSServer) : Voices :=
  {| model := match tts_model self with
              | Some _ => "coqui-tts-real"
              | None => "mock-tts-server"
              end;
     loaded := match tts_model self with Some _ => true | None => false end;
     supported_languages := ["en"] |}.

(** *** The two providers *)

Definition sample_rate : Z := 22050.

(** [int(sample_rate * duration)] with [duration = 1.0]. *)
Definition num_samples : Z := sample_rate * 1.

Definition mock_path (self : CoquiTTSServer) (text : string) : string :=
  path_join (temp_dir self) ("mock_tts_" +:+ str_of_int (hash text) +:+ ".wav").

Definition real_path (self : CoquiTTSServer) (text : string) : string :=
  path_join (temp_dir self) ("coqui_tts_" +:+ str_of_int (hash text) +:+ ".wav").

(** [generate_mock_audio]: the handler of its [try] logs and re-raises. *)
Definition generate_mock_audio (self : CoquiTTSServer) (text : string) : M string :=
  record_call (CallMock text) ;;;
  try_except
    (let output_path := mock_path self text in
     wave_open_w output_path ;;;
     setnchannels output_path 1 ;;;
     setsampwidth output_path 2 ;;;
     setframerate output_path sample_rate ;;;
     for_range (Z.to_nat num_samples)
       (b <- lift (struct_pack_h 0) ;; writeframes output_path b) ;;;
     ret output_path)
    (fun e => raise e).

(** [self.tts_model.tts_to_file(text=, file_path=, speed=)]: the attribute
    access fails on [None]; the model synthesizes and saves the result at
    [file_path]. *)
Definition tts_to_file (m : option TTS) (text file_path : string) (speed : float)
    : M unit :=
  match m with
  | None => raise (Exception "'NoneType' object has no attribute 'tts_to_file'")
  | Some tts =>
      wav <- lift (synthesize tts text speed) ;;
      wave_open_w file_path ;;;
      wave_update file_path (fun _ => wav)
  end.

(** [generate_real_audio]: any exception falls back to the mock audio. *)
Definition generate_real_audio (self : CoquiTTSServer) (text : string)
    (speed : float) : M string :=
  record_call (CallReal text speed) ;;;
  try_except
    (let output_path := real_path self text in
     tts_to_file (tts_model self) text output_path speed ;;;
     ret output_path)
    (fun e => generate_mock_audio self text).

(** *** POST /api/tts *)

(** The request as the handler sees it: what [request.get_json()] does. *)
Record Request := { get_json : result pyval }.

Inductive Response : Type :=
| SendFile (body : Wav) (mimetype download_name : string)
| Jsonify (error : string) (code : Z).

Definition status_code (r : Response) : Z :=
  match r with
  | SendFile _ _ _ => 200
  | Jsonify _ code => code
  end.

(** [send_file(audio_path, mimetype='audio/wav', ...)] *)
Definition send_file (audio_path : string) : M Response :=
  fun w =>
    match files w !! audio_path with
    | Some wav => (Ok (SendFile wav "audio/wav" "speech.wav"), w)
    | None =>
        (Raise (Exception ("[Errno 2] No such file or directory: '"
                           +:+ audio_path +:+ "'")), w)
    end.

(** Where the call on line 117 belongs.  The line stands at the indentation
    of the [if] of line 112, while the [else:] of line 115 is followed by a
    comment only.  [after_conditional] reads the call where it stands: it is
    made after the conditional, on both paths.  [in_else_arm] reads it as
    the body of the [else], which is what the comment above it announces. *)
Inductive placement : Type :=
| after_conditional
| in_else_arm.

(** Lines 112 to 117: the provider calls that bind [audio_path]. *)
Definition provide_audio (line117 : placement) (self : CoquiTTSServer)
    (text : string) (speed : float) : M string :=
  match line117 with
  | after_conditional =>
      match tts_model self with
      | Some _ => generate_real_audio self text speed ;;; ret tt
      | None => ret tt
      end ;;;
      generate_mock_audio self text
  | in_else_arm =>
      match tts_model self with
      | Some _ => generate_real_audio self text speed
      | None => generate_mock_audio self text
      end
  end.

(** Lines 119 to 127: the answer for a generated file. *)
Definition send_audio (audio_path : string) : M Response :=
  ex <- path_exists audio_path ;;
  if String.eqb audio_path "" || negb ex
  then ret (Jsonify "Failed to generate speech" 500)
  else send_file audio_path.

(** [synthesize_speech], the handler of POST /api/tts. *)
Definition synthesize_speech (line117 : placement) (self : CoquiTTSServer)
    (request : Request) : M Response :=
  try_except
    (data <- lift (get_json request) ;;
     missing <- (if negb (truthy data) then ret true
                 else b <- lift (py_contains "text" data) ;; ret (negb b)) ;;
     if (missing : bool) then ret (Jsonify "Missing text parameter" 400) else
     raw <- lift (py_getitem data "text") ;;
     text <- lift (py_strip raw) ;;
     if String.eqb text "" then ret (Jsonify "Empty text" 400) else
     language <- lift (py_get data "language" (PStr "en")) ;;
     sp <- lift (py_get data "speed" (PFloat one_point_zero)) ;;
     speed <- lift (py_float sp) ;;
     audio_path <- provide_audio line117 self text speed ;;
     send_audio audio_path)
    (fun e => ret (Jsonify (str e) 500)).

(** *** Classes of request bodies *)

(** A valid synthesis request: a JSON object whose text is a string that is
    not empty once stripped, and whose speed, the default when the key is
    absent, converts to a float.  [text] and [speed] are what the handler
    passes on. *)
Inductive valid_request (request : Request) (text : string) (speed : float) : Prop :=
| ValidRequest (d : list (string * pyval)) (s : string)
    (Hjson : get_json request = Ok (PDict d))
    (Htext : dict_lookup "text" d = Some (PStr s))
    (Hstrip : strip s = text)
    (Hnonempty : String.eqb text "" = false)
    (Hspeed : py_float (match dict_lookup "speed" d with
                        | Some x => x
                        | None => PFloat one_point_zero
                        end) = Ok speed).

(** Bodies without a usable text: a body that is absent ([None]) or
    otherwise false, one in which there is no text, or one whose text is
    empty once stripped; with the message of the answer. *)
Inductive rejected : pyval -> string -> Prop :=
| rejected_absent (data : pyval) :
    truthy data = false -> rejected data "Missing text parameter"
| rejected_no_key (data : pyval) :
    py_contains "text" data = Ok false -> rejected data "Missing text parameter"
| rejected_empty (d : list (string * pyval)) (s : string) :
    dict_lookup "text" d = Some (PStr s) -> strip s = "" ->
    rejected (PDict d) "Empty text".

(** The file the claims call one second of silence: mono, 16-bit, 22050 Hz,
    two zero bytes per sample. *)
Definition silent_wav : Wav :=
  {| nchannels := 1; sampwidth := 2; framerate := 22050;
     frames := repeat Byte.x00 (2 * Z.to_nat 22050) |}.

(** The model-backed synthesis raises: the handle is missing, the model
    itself fails, or the file cannot be saved. *)
Inductive tts_raises (self : CoquiTTSServer) (text : string) (speed : float)
    (w : World) : Prop :=
| raises_no_handle : tts_model self = None -> tts_raises self text speed w
| raises_in_model (tts : TTS) (e : exn) :
    tts_model self = Some tts -> synthesize tts text speed = Raise e ->
    tts_raises self text speed w
| raises_on_save (tts : TTS) (wav : Wav) (e : exn) :
    tts_model self = Some tts -> synthesize tts text speed = Ok wav ->
    write_error w (real_path self text) = Some e ->
    tts_raises self text speed w.

Definition is_str (v : pyval) : bool :=
  match v with PStr _ => true | _ => false end.

(** Bodies of the wrong type: a text that is not a string, or, under a text
    that passes validation, a speed that [float()] refuses; with the
    exception raised. *)
Inductive ill_typed : pyval -> exn -> Prop :=
| ill_typed_text (d : list (string * pyval)) (v : pyval) :
    dict_lookup "text" d = Some v -> is_str v = false ->
    ill_typed (PDict d)
      (Exception ("'" +:+ type_name v +:+ "' object has no attribute 'strip'"))
| ill_typed_speed (d : list (string * pyval)) (s : string) (v : pyval) (e : exn) :
    dict_lookup "text" d = Some (PStr s) -> String.eqb (strip s) "" = false ->
    dict_lookup "speed" d = Some v -> py_float v = Raise e ->
    ill_typed (PDict d) e.

End Server.

(** ** A concrete runtime and concrete requests, for the examples *)

Module Examples.

(** A polynomial string hash, standing for the hash of one process. *)
Definition poly_hash (s : string) : Z :=
  fold_left (fun h c => (h * 31 + Z.of_N (N_of_ascii c)) mod 2305843009213693951)
            (list_ascii_of_string s) 7 - 1152921504606846976.

(** Floats are read as rationals; a string converts when it is a decimal
    integer. *)
#[export] Instance rational_runtime : PyRuntime := {|
  float := Q;
  float_of_int := fun z => Ok (inject_Z z);
  float_of_str := fun s =>
    match NilZero.int_of_string s with
    | Some d => Ok (inject_Z (Z.of_int d))
    | None => Raise (Exception ("could not convert string to float: '" +:+ s +:+ "'"))
    end;
  float_of_bool := fun b => if b then 1%Q else 0%Q;
  float_is_zero := fun q => Qeq_bool q 0;
  one_point_zero := 1%Q;
  hash := poly_hash
|}.

(** The waveform the example model emits: one sample per character. *)
Definition voice : TTS :=
  {| synthesize := fun text speed =>
       Ok {| nchannels := 1; sampwidth := 2; framerate := 22050;
             frames := flat_map (fun c => [Byte.x01; Byte.x00])
                                (list_ascii_of_string text) |} |}.

(** A model whose synthesis always fails. *)
Definition broken_voice : TTS :=
  {| synthesize := fun _ _ => Raise (Exception "CUDA out of memory") |}.

Definition mock_server : CoquiTTSServer :=
  {| port := 5002; host := "0.0.0.0"; temp_dir := "/tmp/tmpab12"; tts_model := None |}.

Definition real_server : CoquiTTSServer :=
  {| port := 5002; host := "0.0.0.0"; temp_dir := "/tmp/tmpab12";
     tts_model := Some voice |}.

Definition failing_server : CoquiTTSServer :=
  {| port := 5002; host := "0.0.0.0"; temp_dir := "/tmp/tmpab12";
     tts_model := Some broken_voice |}.

(** An empty temp directory that accepts writes, and one that refuses them. *)
Definition fresh_world : World :=
  {| files := ∅; write_error := fun _ => None; calls := [] |}.

Definition readonly_world : World :=
  {| files := ∅;
     write_error := fun p => Some (Exception ("[Errno 13] Permission denied: '" +:+ p +:+ "'"));
     calls := [] |}.

Definition post_json (d : list (string * pyval)) : Request :=
  {| get_json := Ok (PDict d) |}.

Definition hello : Request := post_json [("text", PStr "Hello")].

End Examples.

(** * Properties of the server

    Every property of the handler is stated for both placements of the call
    of line 117, except the two lemmas on a model that works, where the
    placements differ. *)

Section Properties.
Context `{PyRuntime}.

Notation "x <- m ;; k" := (bind m (fun x => k))
  (at level 100, m at next level, right associativity).
Notation "m ;;; k" := (bind m (fun _ => k))
  (at level 100, right associativity).

(** ** Strings and derived paths *)

Lemma append_inj_l (a b c : string) : a +:+ b = a +:+ c -> b = c.
Proof.
  induction a as [|x a IH]; simpl; intros E; [exact E|].
  injection E as E. auto.
Qed.

Lemma append_nonempty (a b : string) : b <> "" -> a +:+ b <> "".
Proof. destruct a; simpl; [auto | discriminate]. Qed.

Lemma path_join_inj (a b1 b2 : string) :
  String.prefix "/" b1 = false -> String.prefix "/" b2 = false ->
  path_join a b1 = path_join a b2 -> b1 = b2.
Proof.
  unfold path_join. intros -> ->.
  destruct (String.eqb a "" || endswith_slash a); intros E.
  - exact (append_inj_l _ _ _ E).
  - apply append_inj_l in E. simpl in E. injection E as E. exact E.
Qed.

Lemma path_join_nonempty (a b : string) : b <> "" -> path_join a b <> "".
Proof.
  unfold path_join. intros Hb.
  destruct (String.prefix "/" b); [exact Hb|].
  destruct (String.eqb a "" || endswith_slash a); apply append_nonempty;
    [exact Hb | discriminate].
Qed.

Lemma mock_path_nonempty (self : CoquiTTSServer) (text : string) :
  String.eqb (mock_path self text) "" = false.
Proof.
  apply String.eqb_neq, path_join_nonempty. discriminate.
Qed.

Lemma real_path_nonempty (self : CoquiTTSServer) (text : string) :
  String.eqb (real_path self text) "" = false.
Proof.
  apply String.eqb_neq, path_join_nonempty. discriminate.
Qed.

(** C10: for every server and text, the path derived by the model-backed
    provider (prefix coqui_tts_) is different from the path derived by the
    silence provider (prefix mock_tts_), so the two never name the same
    file of the temp directory. *)
Theorem real_path_differs_from_mock_path (self : CoquiTTSServer) (text : string) :
  String.eqb (real_path self text) (mock_path self text) = false.
Proof.
  apply String.eqb_neq. unfold real_path, mock_path. intros E.
  apply path_join_inj in E; [discriminate E | reflexivity | reflexivity].
Qed.

(** ** GET /health *)

Lemma init_tts_model (TTS_AVAILABLE : bool) (TTS_ctor : string -> result TTS)
    (mkdtemp : string) :
  is_Some (tts_model (init TTS_AVAILABLE TTS_ctor mkdtemp)) <->
  TTS_AVAILABLE = true /\
  ((exists m, TTS_ctor "tts_models/en/ljspeech/fast_pitch" = Ok m) \/
   (exists m, TTS_ctor "tts_models/en/ljspeech/tacotron2-DDC" = Ok m)).
Proof.
  unfold init; simpl. destruct TTS_AVAILABLE.
  - destruct (TTS_ctor "tts_models/en/ljspeech/fast_pitch") as [m|e] eqn:E1.
    + split; [intros _; split; eauto | intros _; eauto].
    + destruct (TTS_ctor "tts_models/en/ljspeech/tacotron2-DDC") as [m|e'] eqn:E2.
      * split; [intros _; split; eauto | intros _; eauto].
      * split.
        -- intros [x Hx]; discriminate.
        -- intros [_ [[m Hm] | [m Hm]]]; discriminate.
  - split.
    + intros [x Hx]; discriminate.
    + intros [E _]; discriminate.
Qed.

(** C6: GET /health always answers status healthy, cuda_available false,
    model_loaded true exactly when the server holds a model handle, which
    after startup is exactly when the library was importable and one of the
    two load attempts succeeded, and the version tag 1.0.0-real with a model
    and 1.0.0-mock without. *)
Theorem health_check_reports_mode :
  (forall self : CoquiTTSServer,
     status (health_check self) = "healthy" /\
     cuda_available (health_check self) = false /\
     (model_loaded (health_check self) = true <-> is_Some (tts_model self)) /\
     version (health_check self) =
       (if model_loaded (health_check self) then "1.0.0-real" else "1.0.0-mock")) /\
  (forall (TTS_AVAILABLE : bool) (TTS_ctor : string -> result TTS) (mkdtemp : string),
     model_loaded (health_check (init TTS_AVAILABLE TTS_ctor mkdtemp)) = true <->
     TTS_AVAILABLE = true /\
     ((exists m, TTS_ctor "tts_models/en/ljspeech/fast_pitch" = Ok m) \/
      (exists m, TTS_ctor "tts_models/en/ljspeech/tacotron2-DDC" = Ok m))).
Proof.
  assert (Hm : forall self : CoquiTTSServer,
             model_loaded (health_check self) = true <-> is_Some (tts_model self)).
  { intros self. unfold health_check; simpl.
    destruct (tts_model self); split; intros Hx; eauto; try discriminate.
    destruct Hx as [x Hx]; discriminate. }
  split.
  - intros self. repeat split; try apply Hm.
    unfold health_check; simpl. destruct (tts_model self); reflexivity.
  - intros a c d. rewrite Hm. apply init_tts_model.
Qed.

(** ** Validation in POST /api/tts *)

Lemma dict_lookup_Some_truthy (k : string) (d : list (string * pyval)) (v : pyval) :
  dict_lookup k d = Some v -> truthy (PDict d) = true.
Proof. destruct d; [discriminate | reflexivity]. Qed.

(** C2: a request whose body is absent, or has no text key, or whose text
    is empty once stripped, is answered 400 with the message of its case,
    and the world is left as it was: no provider call is recorded and no
    file of the temp directory changes.  ([rejected] holds of the absent
    body and of every object without a text key by the two lemmas that
    follow the theorem.) *)
Theorem invalid_text_is_rejected (line117 : placement) (self : CoquiTTSServer)
    (request : Request) (data : pyval) (msg : string) (w : World) :
  get_json request = Ok data ->
  rejected data msg ->
  synthesize_speech line117 self request w = (Ok (Jsonify msg 400), w).
Proof.
  intros Hjson Hrej.
  unfold synthesize_speech, try_except, bind, lift. rewrite Hjson.
  destruct Hrej as [data Ht|data Hc|d s Hd Hs].
  - rewrite Ht. reflexivity.
  - destruct (truthy data); simpl; [rewrite Hc|]; reflexivity.
  - rewrite (dict_lookup_Some_truthy _ _ _ Hd). simpl. rewrite Hd. simpl.
    rewrite Hs. reflexivity.
Qed.

Lemma absent_body_rejected : rejected PNone "Missing text parameter".
Proof. apply rejected_absent. reflexivity. Qed.

Lemma body_without_text_rejected (d : list (string * pyval)) :
  dict_lookup "text" d = None -> rejected (PDict d) "Missing text parameter".
Proof. intros Hd. apply rejected_no_key. simpl. rewrite Hd. reflexivity. Qed.

(** C8, as amended: a text that is present but not a string, or, once the
    text has passed validation, a speed that is present and does not
    convert to a float, is answered 500 with the text of the exception, and
    the world is left as it was: no provider ran and no file was written. *)
Theorem ill_typed_body_is_server_error (line117 : placement)
    (self : CoquiTTSServer) (request : Request) (data : pyval) (e : exn)
    (w : World) :
  get_json request = Ok data ->
  ill_typed data e ->
  synthesize_speech line117 self request w = (Ok (Jsonify (str e) 500), w).
Proof.
  intros Hjson Hill.
  unfold synthesize_speech, try_except, bind, lift. rewrite Hjson.
  destruct Hill as [d v Hd Hv|d s v e Hd Hs Hsp Hf].
  - rewrite (dict_lookup_Some_truthy _ _ _ Hd). simpl. rewrite Hd. simpl.
    destruct v; try discriminate Hv; reflexivity.
  - rewrite (dict_lookup_Some_truthy _ _ _ Hd). simpl. rewrite Hd. simpl.
    rewrite Hs. simpl. rewrite Hsp, Hf. reflexivity.
Qed.

(** ** Totality of POST /api/tts *)

(** [post m Q]: whenever [m] returns, its value satisfies [Q]. *)
Definition post {A} (m : M A) (Q : A -> Prop) : Prop :=
  forall w, match m w with (Ok a, _) => Q a | (Raise _, _) => True end.

Lemma post_ret {A} (a : A) (Q : A -> Prop) : Q a -> post (ret a) Q.
Proof. intros Ha w. exact Ha. Qed.

Lemma post_bind {A B} (m : M A) (k : A -> M B) (Q : B -> Prop) :
  (forall a, post (k a) Q) -> post (bind m k) Q.
Proof.
  intros Hk w. unfold bind. destruct (m w) as [[a|e] w']; [apply Hk | exact I].
Qed.

Lemma post_send_file (audio_path : string) (Q : Response -> Prop) :
  (forall body, Q (SendFile body "audio/wav" "speech.wav")) ->
  post (send_file audio_path) Q.
Proof.
  intros HQ w. unfold send_file. destruct (files w !! audio_path); [apply HQ | exact I].
Qed.

Lemma try_except_total {A} (m : M A) (h : exn -> A) (Q : A -> Prop) (w : World) :
  post m Q -> (forall e, Q (h e)) ->
  exists a w', try_except m (fun e => ret (h e)) w = (Ok a, w') /\ Q a.
Proof.
  intros Hm Hh. unfold try_except. specialize (Hm w).
  destruct (m w) as [[a|e] w'].
  - exists a, w'. auto.
  - exists (h e), w'. split; [reflexivity | apply Hh].
Qed.

(** The three shapes of answer the handler has. *)
Definition http_answer (r : Response) : Prop :=
  (exists body, r = SendFile body "audio/wav" "speech.wav" /\ status_code r = 200) \/
  (exists msg, r = Jsonify msg 400) \/
  (exists msg, r = Jsonify msg 500).

(** C9: the handler is total: on every request and in every world it
    returns, never raising, one response, which is the WAV file with status
    200 or a JSON error with status 400 or 500. *)
Theorem synthesize_speech_total (line117 : placement) (self : CoquiTTSServer)
    (request : Request) (w : World) :
  exists r w',
    synthesize_speech line117 self request w = (Ok r, w') /\ http_answer r.
Proof.
  unfold synthesize_speech.
  apply (try_except_total _ (fun e => Jsonify (str e) 500) http_answer).
  - apply post_bind; intros data. apply post_bind; intros missing.
    destruct missing.
    { apply post_ret. right; left; eauto. }
    apply post_bind; intros raw. apply post_bind; intros text.
    destruct (String.eqb text "").
    { apply post_ret. right; left; eauto. }
    do 4 (apply post_bind; intros ?). unfold send_audio.
    apply post_bind; intros ex.
    match goal with |- post (if ?c then _ else _) _ => destruct c end.
    + apply post_ret. right; right; eauto.
    + apply post_send_file. intros body. left. eauto.
  - intros e. right; right; eauto.
Qed.

(** ** The silence provider *)

Lemma set_files_set_files (w : World) (a b : gmap string Wav) :
  set_files (set_files w a) b = set_files w b.
Proof. reflexivity. Qed.

Lemma wave_update_at (path : string) (f : Wav -> Wav) (w : World) (wav : Wav) :
  files w !! path = Some wav ->
  wave_update path f w = (Ok tt, set_files w (<[path := f wav]> (files w))).
Proof. intros E. unfold wave_update. rewrite E. reflexivity. Qed.

Lemma wave_update_inserted (path : string) (f : Wav -> Wav) (w : World)
    (fs : gmap string Wav) (wav : Wav) :
  wave_update path f (set_files w (<[path := wav]> fs))
  = (Ok tt, set_files w (<[path := f wav]> fs)).
Proof.
  rewrite (wave_update_at path f _ wav) by apply lookup_insert_eq.
  rewrite set_files_set_files. simpl. rewrite insert_insert_eq. reflexivity.
Qed.

Lemma repeat_two_more (n : nat) (l : list Byte.byte) :
  (l ++ [Byte.x00; Byte.x00]) ++ repeat Byte.x00 (2 * n)
  = l ++ repeat Byte.x00 (2 * S n).
Proof.
  rewrite <- app_assoc. f_equal.
  replace (2 * S n)%nat with (S (S (2 * n))) by lia. reflexivity.
Qed.

(** The loop of [generate_mock_audio]: [n] rounds append [2 * n] zero bytes
    to the open file. *)
Lemma silence_loop (path : string) (n : nat) :
  forall (w : World) (fs : gmap string Wav) (c s r : Z) (l : list Byte.byte),
    for_range n (b <- lift (struct_pack_h 0) ;; writeframes path b)
      (set_files w (<[path := {| nchannels := c; sampwidth := s; framerate := r;
                                 frames := l |}]> fs))
    = (Ok tt,
       set_files w (<[path := {| nchannels := c; sampwidth := s; framerate := r;
                                 frames := l ++ repeat Byte.x00 (2 * n) |}]> fs)).
Proof.
  induction n as [|n IH]; intros w fs c s r l.
  - simpl. rewrite app_nil_r. reflexivity.
  - change (for_range (S n) ?body) with (bind body (fun _ => for_range n body)).
    unfold bind at 1. unfold bind at 1, lift at 1.
    change (struct_pack_h 0) with (@Ok (list Byte.byte) [Byte.x00; Byte.x00]).
    cbv beta iota. unfold writeframes at 1.
    rewrite wave_update_inserted. cbv beta iota.
    cbn [nchannels sampwidth framerate frames].
    rewrite IH. rewrite repeat_two_more. reflexivity.
Qed.

(** On a path that can be opened, the silence provider records its call,
    writes the silent file and returns the path. *)
Lemma generate_mock_audio_writes (self : CoquiTTSServer) (text : string) (w : World) :
  write_error w (mock_path self text) = None ->
  generate_mock_audio self text w
  = (Ok (mock_path self text),
     {| files := <[mock_path self text := silent_wav]> (files w);
        write_error := write_error w;
        calls := calls w ++ [CallMock text] |}).
Proof.
  intros Hw. unfold generate_mock_audio.
  unfold bind at 1, record_call at 1. cbv beta iota.
  unfold try_except. cbv zeta.
  unfold bind at 1, wave_open_w at 1. cbn [write_error]. rewrite Hw.
  unfold bind at 1, setnchannels at 1. rewrite wave_update_inserted.
  unfold bind at 1, setsampwidth at 1. rewrite wave_update_inserted.
  unfold bind at 1, setframerate at 1. rewrite wave_update_inserted.
  unfold bind at 1. cbn [nchannels sampwidth framerate frames empty_wav].
  rewrite silence_loop. reflexivity.
Qed.

(** When the path cannot be opened, the provider re-raises the error of the
    open; only the call is recorded. *)
Lemma generate_mock_audio_raises (self : CoquiTTSServer) (text : string) (w : World)
    (e : exn) :
  write_error w (mock_path self text) = Some e ->
  generate_mock_audio self text w
  = (Raise e,
     {| files := files w; write_error := write_error w;
        calls := calls w ++ [CallMock text] |}).
Proof.
  intros Hw. unfold generate_mock_audio.
  unfold bind at 1, record_call at 1. cbv beta iota.
  unfold try_except. cbv zeta.
  unfold bind at 1, wave_open_w at 1. cbn [write_error]. rewrite Hw.
  reflexivity.
Qed.

Lemma samples16_zeros (n : nat) :
  samples16 (repeat Byte.x00 (2 * n)) = repeat 0 n.
Proof.
  induction n as [|n IH]; [reflexivity|].
  replace (2 * S n)%nat with (S (S (2 * n))) by lia.
  change (repeat Byte.x00 (S (S (2 * n))))
    with (Byte.x00 :: Byte.x00 :: repeat Byte.x00 (2 * n)).
  cbn [samples16]. rewrite IH. reflexivity.
Qed.

Lemma silent_wav_format :
  nchannels silent_wav = 1 /\ sampwidth silent_wav = 2 /\
  framerate silent_wav = 22050 /\ getnframes silent_wav = 22050 /\
  samples16 (frames silent_wav) = repeat 0 (Z.to_nat 22050).
Proof.
  do 3 (split; [reflexivity|]). split.
  - unfold getnframes, silent_wav; cbn [frames nchannels sampwidth].
    rewrite repeat_length. vm_compute. reflexivity.
  - apply samples16_zeros.
Qed.

(** ** The model-backed provider *)

Lemma generate_real_audio_writes (self : CoquiTTSServer) (tts : TTS)
    (text : string) (speed : float) (wav : Wav) (w : World) :
  tts_model self = Some tts ->
  synthesize tts text speed = Ok wav ->
  write_error w (real_path self text) = None ->
  generate_real_audio self text speed w
  = (Ok (real_path self text),
     {| files := <[real_path self text := wav]> (files w);
        write_error := write_error w;
        calls := calls w ++ [CallReal text speed] |}).
Proof.
  intros Hm Hs Hw. unfold generate_real_audio.
  unfold bind at 1, record_call at 1. cbv beta iota.
  unfold try_except. cbv zeta. rewrite Hm. unfold tts_to_file.
  unfold bind at 1. unfold bind at 1, lift at 1. rewrite Hs.
  unfold bind at 1, wave_open_w at 1. cbn [write_error]. rewrite Hw.
  rewrite wave_update_inserted. reflexivity.
Qed.

(** When the synthesis raises, the provider is the silence provider run in
    the world where only the call was recorded. *)
Lemma generate_real_audio_falls_back (self : CoquiTTSServer) (text : string)
    (speed : float) (w : World) :
  tts_raises self text speed w ->
  generate_real_audio self text speed w
  = generate_mock_audio self text
      {| files := files w; write_error := write_error w;
         calls := calls w ++ [CallReal text speed] |}.
Proof.
  intros Hr. unfold generate_real_audio.
  unfold bind at 1, record_call at 1. cbv beta iota.
  unfold try_except at 1. cbv zeta. unfold tts_to_file.
  destruct Hr as [Hm|tts e Hm Hs|tts wav e Hm Hs Hw]; rewrite Hm.
  - reflexivity.
  - unfold bind at 1. unfold bind at 1, lift at 1. rewrite Hs. reflexivity.
  - unfold bind at 1. unfold bind at 1, lift at 1. rewrite Hs.
    unfold bind at 1, wave_open_w at 1. cbn [write_error]. rewrite Hw.
    reflexivity.
Qed.

(** ** POST /api/tts on valid requests *)

(** On a valid request the handler is the provider calls followed by the
    answer, under its catch-all. *)
Lemma synthesize_speech_valid (line117 : placement) (self : CoquiTTSServer)
    (request : Request) (text : string) (speed : float) (w : World) :
  valid_request request text speed ->
  synthesize_speech line117 self request w
  = try_except (audio_path <- provide_audio line117 self text speed ;;
                send_audio audio_path)
      (fun e => ret (Jsonify (str e) 500)) w.
Proof.
  intros [d s Hjson Htext Hstrip Hne Hspeed].
  unfold synthesize_speech, try_except. f_equal.
  unfold bind at 1, lift at 1. rewrite Hjson.
  rewrite (dict_lookup_Some_truthy _ _ _ Htext). cbn [negb].
  unfold bind at 1. unfold bind at 1, lift at 1, py_contains. rewrite Htext.
  unfold ret at 1. cbn [negb].
  unfold bind at 1, lift at 1, py_getitem. rewrite Htext.
  unfold bind at 1, lift at 1, py_strip. rewrite Hstrip, Hne.
  unfold bind at 1, lift at 1, py_get.
  unfold bind at 1, lift at 1. unfold bind at 1, lift at 1. rewrite Hspeed.
  reflexivity.
Qed.

Lemma send_audio_existing (audio_path : string) (wav : Wav) (w : World) :
  String.eqb audio_path "" = false ->
  files w !! audio_path = Some wav ->
  send_audio audio_path w = (Ok (SendFile wav "audio/wav" "speech.wav"), w).
Proof.
  intros Hne Hf. unfold send_audio, bind, path_exists, send_file.
  rewrite Hne, Hf, bool_decide_eq_true_2 by eauto. cbn [orb negb].
  rewrite Hf. reflexivity.
Qed.

(** A valid request whose provider calls return a path that holds a file is
    answered with that file; one whose provider calls raise is answered 500
    with the text of the exception. *)
Lemma synthesize_speech_sends (line117 : placement) (self : CoquiTTSServer)
    (request : Request) (text : string) (speed : float) (w w' : World)
    (audio_path : string) (wav : Wav) :
  valid_request request text speed ->
  provide_audio line117 self text speed w = (Ok audio_path, w') ->
  String.eqb audio_path "" = false ->
  files w' !! audio_path = Some wav ->
  synthesize_speech line117 self request w
  = (Ok (SendFile wav "audio/wav" "speech.wav"), w').
Proof.
  intros Hv Hp Hne Hf. rewrite (synthesize_speech_valid _ _ _ _ _ _ Hv).
  unfold try_except, bind. rewrite Hp.
  rewrite (send_audio_existing _ wav) by assumption. reflexivity.
Qed.

Lemma synthesize_speech_catches (line117 : placement) (self : CoquiTTSServer)
    (request : Request) (text : string) (speed : float) (w w' : World) (e : exn) :
  valid_request request text speed ->
  provide_audio line117 self text speed w = (Raise e, w') ->
  synthesize_speech line117 self request w = (Ok (Jsonify (str e) 500), w').
Proof.
  intros Hv Hp. rewrite (synthesize_speech_valid _ _ _ _ _ _ Hv).
  unfold try_except, bind. rewrite Hp. reflexivity.
Qed.

(** *** The provider calls, case by case *)

Lemma provide_audio_without_model (line117 : placement) (self : CoquiTTSServer)
    (text : string) (speed : float) (w : World) :
  tts_model self = None ->
  provide_audio line117 self text speed w = generate_mock_audio self text w.
Proof.
  intros Hm. unfold provide_audio. rewrite Hm. destruct line117; reflexivity.
Qed.

(** The silence provider's calls after a failed synthesis: the fallback of
    [generate_real_audio], and line 117 once more when it stands after the
    conditional. *)
Definition fallback_calls (line117 : placement) (text : string) : list call :=
  match line117 with
  | after_conditional => [CallMock text; CallMock text]
  | in_else_arm => [CallMock text]
  end.

Lemma provide_audio_after_failure (line117 : placement) (self : CoquiTTSServer)
    (tts : TTS) (text : string) (speed : float) (w : World) :
  tts_model self = Some tts ->
  tts_raises self text speed w ->
  write_error w (mock_path self text) = None ->
  provide_audio line117 self text speed w
  = (Ok (mock_path self text),
     {| files := <[mock_path self text := silent_wav]> (files w);
        write_error := write_error w;
        calls := calls w ++ CallReal text speed :: fallback_calls line117 text |}).
Proof.
  intros Hm Hr Hw. unfold provide_audio. rewrite Hm. destruct line117.
  - unfold bind at 1. unfold bind at 1.
    rewrite generate_real_audio_falls_back by exact Hr.
    rewrite generate_mock_audio_writes by exact Hw.
    unfold ret at 1. cbv beta iota.
    rewrite generate_mock_audio_writes by exact Hw. cbn [files write_error calls].
    rewrite insert_insert_eq, <- !app_assoc. reflexivity.
  - rewrite generate_real_audio_falls_back by exact Hr.
    rewrite generate_mock_audio_writes by exact Hw. cbn [files write_error calls].
    rewrite <- app_assoc. reflexivity.
Qed.

Lemma provide_audio_silence_failure (line117 : placement) (self : CoquiTTSServer)
    (text : string) (speed : float) (w : World) (e : exn) :
  tts_raises self text speed w ->
  write_error w (mock_path self text) = Some e ->
  exists w', provide_audio line117 self text speed w = (Raise e, w') /\
             files w' = files w.
Proof.
  intros Hr Hw.
  destruct (tts_model self) as [tts|] eqn:Hm.
  - unfold provide_audio. rewrite Hm. destruct line117.
    + unfold bind at 1. unfold bind at 1.
      rewrite generate_real_audio_falls_back by exact Hr.
      rewrite generate_mock_audio_raises with (e := e) by exact Hw.
      eexists; split; reflexivity.
    + rewrite generate_real_audio_falls_back by exact Hr.
      rewrite generate_mock_audio_raises with (e := e) by exact Hw.
      eexists; split; reflexivity.
  - rewrite provide_audio_without_model by exact Hm.
    rewrite generate_mock_audio_raises with (e := e) by exact Hw.
    eexists; split; reflexivity.
Qed.

(** With a model that works, the two placements part ways: after the
    conditional, the silence provider runs as well and its path is the one
    kept; in the else arm, the model-backed provider runs alone. *)
Lemma provide_audio_after_success (line117 : placement) (self : CoquiTTSServer)
    (tts : TTS) (text : string) (speed : float) (wav : Wav) (w : World) :
  tts_model self = Some tts ->
  synthesize tts text speed = Ok wav ->
  write_error w (real_path self text) = None ->
  write_error w (mock_path self text) = None ->
  provide_audio line117 self text speed w
  = match line117 with
    | after_conditional =>
        (Ok (mock_path self text),
         {| files := <[mock_path self text := silent_wav]>
                       (<[real_path self text := wav]> (files w));
            write_error := write_error w;
            calls := calls w ++ [CallReal text speed; CallMock text] |})
    | in_else_arm =>
        (Ok (real_path self text),
         {| files := <[real_path self text := wav]> (files w);
            write_error := write_error w;
            calls := calls w ++ [CallReal text speed] |})
    end.
Proof.
  intros Hm Hs Hwr Hwm. unfold provide_audio. rewrite Hm. destruct line117.
  - unfold bind at 1. unfold bind at 1.
    rewrite (generate_real_audio_writes self tts text speed wav w Hm Hs Hwr).
    unfold ret at 1. cbv beta iota.
    rewrite generate_mock_audio_writes by exact Hwm. cbn [files write_error calls].
    rewrite <- app_assoc. reflexivity.
  - apply (generate_real_audio_writes self tts text speed wav w Hm Hs Hwr).
Qed.

(** ** The claims about synthesis *)

(** C4: for every text, on a path that can be opened the silence provider,
    which takes no speed, writes at its derived path a WAV that is mono,
    16-bit, 22050 Hz, of exactly 22050 frames, every sample zero; and with
    no model loaded a valid request for that text is answered 200 with that
    file as the audio/wav body. *)
Theorem silence_is_one_second (self : CoquiTTSServer) (text : string) (w : World) :
  write_error w (mock_path self text) = None ->
  (exists w', generate_mock_audio self text w = (Ok (mock_path self text), w') /\
              files w' !! mock_path self text = Some silent_wav) /\
  (nchannels silent_wav = 1 /\ sampwidth silent_wav = 2 /\
   framerate silent_wav = 22050 /\ getnframes silent_wav = 22050 /\
   samples16 (frames silent_wav) = repeat 0 (Z.to_nat 22050)) /\
  (forall (line117 : placement) (request : Request) (speed : float),
     tts_model self = None ->
     valid_request request text speed ->
     exists r w', synthesize_speech line117 self request w = (Ok r, w') /\
                  r = SendFile silent_wav "audio/wav" "speech.wav" /\
                  status_code r = 200).
Proof.
  intros Hw. split; [|split].
  - rewrite generate_mock_audio_writes by exact Hw.
    eexists; split; [reflexivity|]. apply lookup_insert_eq.
  - exact silent_wav_format.
  - intros line117 request speed Hm Hv.
    eexists _, _; split; [|split; reflexivity].
    eapply (synthesize_speech_sends _ _ _ text speed w _ (mock_path self text)
              silent_wav Hv).
    + rewrite provide_audio_without_model by exact Hm.
      apply generate_mock_audio_writes, Hw.
    + apply mock_path_nonempty.
    + apply lookup_insert_eq.
Qed.

(** C3, as amended: on a valid request, when the model-backed synthesis
    raises, the provider runs the silence provider for the same text in its
    place; provided the silent file can be written, the request is answered
    200 with the silent WAV and no error reaches the caller. *)
Theorem model_failure_falls_back_to_silence (line117 : placement)
    (self : CoquiTTSServer) (request : Request) (text : string) (speed : float)
    (w : World) :
  valid_request request text speed ->
  tts_raises self text speed w ->
  write_error w (mock_path self text) = None ->
  generate_real_audio self text speed w
  = generate_mock_audio self text
      {| files := files w; write_error := write_error w;
         calls := calls w ++ [CallReal text speed] |} /\
  exists r w', synthesize_speech line117 self request w = (Ok r, w') /\
               r = SendFile silent_wav "audio/wav" "speech.wav" /\
               status_code r = 200 /\
               files w' !! mock_path self text = Some silent_wav.
Proof.
  intros Hv Hr Hw. split; [exact (generate_real_audio_falls_back _ _ _ _ Hr)|].
  assert (Hp : exists w', provide_audio line117 self text speed w
                          = (Ok (mock_path self text), w') /\
                          files w' !! mock_path self text = Some silent_wav).
  { destruct (tts_model self) as [tts|] eqn:Hm.
    - rewrite (provide_audio_after_failure line117 self tts) by assumption.
      eexists; split; [reflexivity | apply lookup_insert_eq].
    - rewrite provide_audio_without_model by exact Hm.
      rewrite generate_mock_audio_writes by exact Hw.
      eexists; split; [reflexivity | apply lookup_insert_eq]. }
  destruct Hp as (w' & Hp & Hf).
  exists (SendFile silent_wav "audio/wav" "speech.wav"), w'.
  split; [|auto].
  exact (synthesize_speech_sends _ _ _ _ _ _ _ _ _ Hv Hp
           (mock_path_nonempty _ _) Hf).
Qed.

(** C5: when the silent file cannot be written, the silence provider
    re-raises the error of the write; and a valid request that reaches the
    silence provider, because no model is loaded or because the model-backed
    synthesis raised, is answered 500 with the text of that error in the
    error field. *)
Theorem silence_failure_is_server_error (line117 : placement)
    (self : CoquiTTSServer) (request : Request) (text : string) (speed : float)
    (w : World) (e : exn) :
  write_error w (mock_path self text) = Some e ->
  valid_request request text speed ->
  tts_raises self text speed w ->
  (exists w', generate_mock_audio self text w = (Raise e, w') /\
              files w' = files w) /\
  exists w', synthesize_speech line117 self request w
             = (Ok (Jsonify (str e) 500), w') /\
             files w' = files w.
Proof.
  intros Hw Hv Hr. split.
  - rewrite generate_mock_audio_raises with (e := e) by exact Hw.
    eexists; split; reflexivity.
  - destruct (provide_audio_silence_failure line117 _ _ _ _ _ Hr Hw)
      as (w' & Hp & Hf).
    exists w'. split; [|exact Hf].
    exact (synthesize_speech_catches _ _ _ _ _ _ _ _ Hv Hp).
Qed.

(** C7: two requests for the same text, whatever their speeds, are given
    the same file by a provider: the model-backed provider returns the same
    path both times and the second output replaces the first, of which
    nothing remains; the silence provider likewise returns the same path.
    The paths depend on the text through its hash only. *)
Theorem same_text_same_file (self : CoquiTTSServer) (tts : TTS) (text : string)
    (speed1 speed2 : float) (wav1 wav2 : Wav) (w : World) :
  tts_model self = Some tts ->
  synthesize tts text speed1 = Ok wav1 ->
  synthesize tts text speed2 = Ok wav2 ->
  write_error w (real_path self text) = None ->
  write_error w (mock_path self text) = None ->
  (exists w1 w2,
     generate_real_audio self text speed1 w = (Ok (real_path self text), w1) /\
     generate_real_audio self text speed2 w1 = (Ok (real_path self text), w2) /\
     files w1 !! real_path self text = Some wav1 /\
     files w2 !! real_path self text = Some wav2 /\
     files w2 = <[real_path self text := wav2]> (files w)) /\
  (exists w1 w2,
     generate_mock_audio self text w = (Ok (mock_path self text), w1) /\
     generate_mock_audio self text w1 = (Ok (mock_path self text), w2) /\
     files w2 = files w1) /\
  (forall text' : string,
     hash text' = hash text ->
     real_path self text' = real_path self text /\
     mock_path self text' = mock_path self text).
Proof.
  intros Hm Hs1 Hs2 Hwr Hwm. split; [|split].
  - rewrite (generate_real_audio_writes self tts text speed1 wav1 w Hm Hs1 Hwr).
    eexists _, _. split; [reflexivity|].
    rewrite (generate_real_audio_writes self tts text speed2 wav2) by assumption.
    split; [reflexivity|]. cbn [files].
    rewrite !lookup_insert_eq, insert_insert_eq. auto.
  - rewrite generate_mock_audio_writes by exact Hwm.
    eexists _, _. split; [reflexivity|].
    rewrite generate_mock_audio_writes by exact Hwm.
    split; [reflexivity|]. cbn [files]. apply insert_insert_eq.
  - intros text' Hh. unfold real_path, mock_path. rewrite Hh. auto.
Qed.

(** ** Which provider serves a request *)

(** With no model, under either placement, the silence provider alone is
    called and its file is sent. *)
Lemma synthesize_speech_without_model (line117 : placement) (self : CoquiTTSServer)
    (request : Request) (text : string) (speed : float) (w : World) :
  valid_request request text speed ->
  tts_model self = None ->
  write_error w (mock_path self text) = None ->
  synthesize_speech line117 self request w
  = (Ok (SendFile silent_wav "audio/wav" "speech.wav"),
     {| files := <[mock_path self text := silent_wav]> (files w);
        write_error := write_error w;
        calls := calls w ++ [CallMock text] |}).
Proof.
  intros Hv Hm Hw.
  apply (synthesize_speech_sends _ _ _ text speed w _ (mock_path self text)
           silent_wav Hv).
  - rewrite provide_audio_without_model by exact Hm.
    apply generate_mock_audio_writes, Hw.
  - apply mock_path_nonempty.
  - apply lookup_insert_eq.
Qed.

(** With a model that works and the call of line 117 where it stands, the
    handler calls the model-backed provider and then the silence provider,
    and sends the silent file. *)
Lemma synthesize_speech_after_conditional (self : CoquiTTSServer) (tts : TTS)
    (request : Request) (text : string) (speed : float) (wav : Wav) (w : World) :
  valid_request request text speed ->
  tts_model self = Some tts ->
  synthesize tts text speed = Ok wav ->
  write_error w (real_path self text) = None ->
  write_error w (mock_path self text) = None ->
  synthesize_speech after_conditional self request w
  = (Ok (SendFile silent_wav "audio/wav" "speech.wav"),
     {| files := <[mock_path self text := silent_wav]>
                   (<[real_path self text := wav]> (files w));
        write_error := write_error w;
        calls := calls w ++ [CallReal text speed; CallMock text] |}).
Proof.
  intros Hv Hm Hs Hwr Hwm.
  apply (synthesize_speech_sends _ _ _ text speed w _ (mock_path self text)
           silent_wav Hv).
  - apply (provide_audio_after_success after_conditional self tts); assumption.
  - apply mock_path_nonempty.
  - apply lookup_insert_eq.
Qed.

(** With the call of line 117 in the else arm, the handler does what the
    comments of the source say: a model that works serves the request alone
    and its output is what is sent. *)
Lemma synthesize_speech_in_else_arm (self : CoquiTTSServer) (tts : TTS)
    (request : Request) (text : string) (speed : float) (wav : Wav) (w : World) :
  valid_request request text speed ->
  tts_model self = Some tts ->
  synthesize tts text speed = Ok wav ->
  write_error w (real_path self text) = None ->
  write_error w (mock_path self text) = None ->
  synthesize_speech in_else_arm self request w
  = (Ok (SendFile wav "audio/wav" "speech.wav"),
     {| files := <[real_path self text := wav]> (files w);
        write_error := write_error w;
        calls := calls w ++ [CallReal text speed] |}).
Proof.
  intros Hv Hm Hs Hwr Hwm.
  apply (synthesize_speech_sends _ _ _ text speed w _ (real_path self text)
           wav Hv).
  - apply (provide_audio_after_success in_else_arm self tts); assumption.
  - apply real_path_nonempty.
  - apply lookup_insert_eq.
Qed.

End Properties.

(** ** Concrete requests *)

Module Cases.
Import Examples.

Lemma hello_valid : valid_request hello "Hello" 1%Q.
Proof.
  apply (ValidRequest hello "Hello" 1%Q [("text", PStr "Hello")] "Hello");
    reflexivity.
Qed.

Lemma broken_voice_raises (w : World) : tts_raises failing_server "Hello" 1%Q w.
Proof.
  apply (raises_in_model _ _ _ _ broken_voice (Exception "CUDA out of memory"));
    reflexivity.
Qed.

(** C1: with a model loaded and working and the call of line 117 where it
    stands, the request [{"text": "Hello"}] makes the handler call the
    model-backed provider with the text and the default speed and then the
    silence provider as well, and the body sent is the silent file while
    the synthesized one stays unused in the temp directory; without a model
    the silence provider alone is called. *)
Theorem loaded_model_request_runs_both_providers :
  (exists w',
     synthesize_speech after_conditional real_server hello fresh_world
       = (Ok (SendFile silent_wav "audio/wav" "speech.wav"), w') /\
     calls w' = [CallReal "Hello" 1%Q; CallMock "Hello"] /\
     files w' !! real_path real_server "Hello"
       = Some {| nchannels := 1; sampwidth := 2; framerate := 22050;
                 frames := [Byte.x01; Byte.x00; Byte.x01; Byte.x00; Byte.x01;
                            Byte.x00; Byte.x01; Byte.x00; Byte.x01; Byte.x00] |}) /\
  (exists w',
     synthesize_speech after_conditional mock_server hello fresh_world
       = (Ok (SendFile silent_wav "audio/wav" "speech.wav"), w') /\
     calls w' = [CallMock "Hello"]).
Proof.
  split.
  - rewrite (synthesize_speech_after_conditional real_server voice hello "Hello"
               1%Q _ fresh_world hello_valid eq_refl eq_refl eq_refl eq_refl).
    eexists. split; [reflexivity|]. split; [reflexivity|].
    cbn [files]. rewrite lookup_insert_ne.
    + rewrite lookup_insert_eq. reflexivity.
    + intros E. vm_compute in E. discriminate E.
  - rewrite (synthesize_speech_without_model after_conditional mock_server hello
               "Hello" 1%Q fresh_world hello_valid eq_refl eq_refl).
    eexists. split; reflexivity.
Qed.

(** C2, at a blank text. *)
Lemma invalid_text_is_rejected_witness :
  synthesize_speech after_conditional real_server
    (post_json [("text", PStr "   ")]) fresh_world
  = (Ok (Jsonify "Empty text" 400), fresh_world).
Proof.
  apply (invalid_text_is_rejected after_conditional real_server _
           (PDict [("text", PStr "   ")]) "Empty text" fresh_world).
  - reflexivity.
  - apply (rejected_empty _ "   "); reflexivity.
Defined.

(** C3, at a model that always fails, in a writable temp directory. *)
Lemma model_failure_falls_back_to_silence_witness :
  exists r w',
    synthesize_speech after_conditional failing_server hello fresh_world
      = (Ok r, w') /\
    r = SendFile silent_wav "audio/wav" "speech.wav" /\
    status_code r = 200 /\
    files w' !! mock_path failing_server "Hello" = Some silent_wav.
Proof.
  exact (proj2 (model_failure_falls_back_to_silence after_conditional
                  failing_server hello "Hello" 1%Q fresh_world hello_valid
                  (broken_voice_raises _) eq_refl)).
Defined.

(** C3, counterexample: the model fails and the temp directory refuses the
    silent file too; the valid request is answered 500, not 200, wherever
    the call of line 117 is read. *)
Lemma failed_fallback_is_500 :
  synthesize broken_voice "Hello" 1%Q = Raise (Exception "CUDA out of memory") /\
  forall line117 : placement,
    fst (synthesize_speech line117 failing_server hello readonly_world)
    = Ok (Jsonify ("[Errno 13] Permission denied: '"
                   +:+ mock_path failing_server "Hello" +:+ "'") 500).
Proof. split; [|intros []]; vm_compute; reflexivity. Qed.

(** C4, at the request [{"text": "Hello"}] with no model loaded. *)
Lemma silence_is_one_second_witness :
  exists r w',
    synthesize_speech after_conditional mock_server hello fresh_world
      = (Ok r, w') /\
    r = SendFile silent_wav "audio/wav" "speech.wav" /\
    status_code r = 200.
Proof.
  exact (proj2 (proj2 (silence_is_one_second mock_server "Hello" fresh_world
                         eq_refl))
           after_conditional hello 1%Q eq_refl hello_valid).
Defined.

(** C5, at a temp directory that refuses every write, with no model. *)
Lemma silence_failure_is_server_error_witness :
  exists w',
    synthesize_speech after_conditional mock_server hello readonly_world
    = (Ok (Jsonify ("[Errno 13] Permission denied: '"
                    +:+ mock_path mock_server "Hello" +:+ "'") 500), w') /\
    files w' = files readonly_world.
Proof.
  exact (proj2 (silence_failure_is_server_error after_conditional mock_server
                  hello "Hello" 1%Q readonly_world
                  (Exception ("[Errno 13] Permission denied: '"
                              +:+ mock_path mock_server "Hello" +:+ "'"))
                  eq_refl hello_valid
                  (raises_no_handle mock_server "Hello" 1%Q readonly_world eq_refl))).
Defined.

(** C7, at the text Hello with speeds 1 and 2. *)
Lemma same_text_same_file_witness :
  exists w1 w2,
    generate_real_audio real_server "Hello" 1%Q fresh_world
      = (Ok (real_path real_server "Hello"), w1) /\
    generate_real_audio real_server "Hello" 2%Q w1
      = (Ok (real_path real_server "Hello"), w2).
Proof.
  destruct (same_text_same_file real_server voice "Hello" 1%Q 2%Q _ _ fresh_world
              eq_refl eq_refl eq_refl eq_refl eq_refl)
    as [(w1 & w2 & H1 & H2 & _) _].
  exists w1, w2. split; assumption.
Defined.

(** C8, at a text that is a JSON number. *)
Lemma ill_typed_body_is_server_error_witness :
  synthesize_speech after_conditional real_server
    (post_json [("text", PInt 5)]) fresh_world
  = (Ok (Jsonify "'int' object has no attribute 'strip'" 500), fresh_world).
Proof.
  apply (ill_typed_body_is_server_error after_conditional real_server _
           (PDict [("text", PInt 5)])
           (Exception "'int' object has no attribute 'strip'") fresh_world).
  - reflexivity.
  - exact (ill_typed_text [("text", PInt 5)] (PInt 5) eq_refl eq_refl).
Defined.

(** C8, counterexample: a body whose speed does not convert to a float and
    whose text is blank is answered 400 (Empty text), not 500, wherever the
    call of line 117 is read. *)
Lemma blank_text_bad_speed_is_400 :
  dict_lookup "speed" [("text", PStr "  "); ("speed", PStr "fast")]
    = Some (PStr "fast") /\
  py_float (PStr "fast")
    = Raise (Exception "could not convert string to float: 'fast'") /\
  forall line117 : placement,
    synthesize_speech line117 mock_server
      (post_json [("text", PStr "  "); ("speed", PStr "fast")]) fresh_world
    = (Ok (Jsonify "Empty text" 400), fresh_world).
Proof. repeat split; try intros []; vm_compute; reflexivity. Qed.

End Cases.

(** * Further properties of the server

    What follows covers the parts of coqui_server.py that the properties
    above leave out: GET /api/voices, the way the handler reads the body,
    and what a request does to the temp directory. *)

Section Requests.
Context `{PyRuntime}.

Notation "x <- m ;; k" := (bind m (fun x => k))
  (at level 100, m at next level, right associativity).
Notation "m ;;; k" := (bind m (fun _ => k))
  (at level 100, right associativity).

(** ** GET /api/voices *)

(** The two status endpoints never disagree about the mode of the server:
    /api/voices reports loaded exactly when /health reports model_loaded,
    names the real model exactly when the version tag is the real one, and
    always lists the single language en. *)
Theorem voices_agree_with_health (self : CoquiTTSServer) :
  loaded (list_voices self) = model_loaded (health_check self) /\
  (model (list_voices self) = "coqui-tts-real"
   <-> version (health_check self) = "1.0.0-real") /\
  (model (list_voices self) = "mock-tts-server"
   <-> version (health_check self) = "1.0.0-mock") /\
  supported_languages (list_voices self) = ["en"].
Proof.
  unfold list_voices, health_check; simpl.
  destruct (tts_model self); repeat split; intros E; try reflexivity;
    discriminate E.
Qed.

(** ** How the handler reads the body *)

(** The handler on a JSON object, as a function of its text and speed
    entries. *)
Lemma synthesize_speech_object (line117 : placement) (self : CoquiTTSServer)
    (d : list (string * pyval)) (w : World) :
  synthesize_speech line117 self {| get_json := Ok (PDict d) |} w
  = match dict_lookup "text" d with
    | None => (Ok (Jsonify "Missing text parameter" 400), w)
    | Some raw =>
        try_except
          (text <- lift (py_strip raw) ;;
           if String.eqb text "" then ret (Jsonify "Empty text" 400) else
           speed <- lift (py_float (match dict_lookup "speed" d with
                                    | Some x => x
                                    | None => PFloat one_point_zero
                                    end)) ;;
           audio_path <- provide_audio line117 self text speed ;;
           send_audio audio_path)
          (fun e => ret (Jsonify (str e) 500)) w
    end.
Proof.
  unfold synthesize_speech, try_except, bind, lift, ret. cbn [get_json].
  destruct (dict_lookup "text" d) as [raw|] eqn:Ht.
  - rewrite (dict_lookup_Some_truthy _ _ _ Ht). cbn [negb py_contains].
    rewrite Ht. cbn [negb py_getitem]. rewrite Ht.
    destruct (py_strip raw) as [text|e]; [|reflexivity].
    destruct (String.eqb text ""); [reflexivity|].
    cbn [py_get]. reflexivity.
  - destruct (truthy (PDict d)); cbn [negb py_contains]; [rewrite Ht|];
      reflexivity.
Qed.

(** Of a JSON object the handler reads the text and speed entries only:
    two bodies that agree on these two keys get the same answer and have
    the same effect, whatever their language entry and their other keys. *)
Theorem answer_depends_on_text_and_speed_only (line117 : placement)
    (self : CoquiTTSServer) (d1 d2 : list (string * pyval)) (w : World) :
  dict_lookup "text" d1 = dict_lookup "text" d2 ->
  dict_lookup "speed" d1 = dict_lookup "speed" d2 ->
  synthesize_speech line117 self {| get_json := Ok (PDict d1) |} w
  = synthesize_speech line117 self {| get_json := Ok (PDict d2) |} w.
Proof.
  intros Ht Hs. rewrite !synthesize_speech_object, Ht, Hs. reflexivity.
Qed.

Lemma dict_lookup_app (k : string) (d d' : list (string * pyval)) :
  dict_lookup k (d ++ d')
  = match dict_lookup k d with
    | Some v => Some v
    | None => dict_lookup k d'
    end.
Proof.
  induction d as [|[k' v] d IH]; [reflexivity|].
  simpl. destruct (String.eqb k k'); [reflexivity | exact IH].
Qed.

(** A body without a speed entry is served as the same body with the entry
    speed: 1.0 added. *)
Theorem absent_speed_is_one_point_zero (line117 : placement)
    (self : CoquiTTSServer) (d : list (string * pyval)) (w : World) :
  dict_lookup "speed" d = None ->
  synthesize_speech line117 self {| get_json := Ok (PDict d) |} w
  = synthesize_speech line117 self
      {| get_json := Ok (PDict (d ++ [("speed", PFloat one_point_zero)])) |} w.
Proof.
  intros Hs. rewrite !synthesize_speech_object, !dict_lookup_app, Hs.
  destruct (dict_lookup "text" d); reflexivity.
Qed.

(** Whitespace around the text is dropped before anything else is done
    with it: two bodies whose texts are equal once stripped, with the same
    speed entry, get the same answer, the same provider calls and the same
    files. *)
Theorem surrounding_whitespace_is_ignored (line117 : placement)
    (self : CoquiTTSServer) (d1 d2 : list (string * pyval)) (s1 s2 : string)
    (w : World) :
  dict_lookup "text" d1 = Some (PStr s1) ->
  dict_lookup "text" d2 = Some (PStr s2) ->
  strip s1 = strip s2 ->
  dict_lookup "speed" d1 = dict_lookup "speed" d2 ->
  synthesize_speech line117 self {| get_json := Ok (PDict d1) |} w
  = synthesize_speech line117 self {| get_json := Ok (PDict d2) |} w.
Proof.
  intros H1 H2 Hs Hsp. rewrite !synthesize_speech_object, H1, H2, Hsp.
  unfold py_strip. rewrite Hs. reflexivity.
Qed.

(** ** Requests refused before synthesis *)

(** [refused request r]: the request is answered [r] on every server, in
    every world and under both placements, and the world is left as it
    was. *)
Definition refused (request : Request) (r : Response) : Prop :=
  forall (line117 : placement) (self : CoquiTTSServer) (w : World),
    synthesize_speech line117 self request w = (Ok r, w).

Lemma refused_unless_object (request : Request) :
  (forall d, get_json request <> Ok (PDict d)) ->
  (exists msg, refused request (Jsonify msg 400)) \/
  (exists msg, refused request (Jsonify msg 500)).
Proof.
  intros Hd. destruct request as [[data|e]].
  - destruct data as [|b|z|f|s|l|d].
    + left. eexists. intros p self w. reflexivity.
    + destruct b.
      * right. eexists. intros p self w. reflexivity.
      * left. eexists. intros p self w. reflexivity.
    + destruct (z =? 0) eqn:Ez.
      * left. eexists. intros p self w.
        unfold synthesize_speech, try_except, bind, lift. cbn [get_json truthy].
        rewrite Ez. reflexivity.
      * right. eexists. intros p self w.
        unfold synthesize_speech, try_except, bind, lift. cbn [get_json truthy].
        rewrite Ez. reflexivity.
    + destruct (float_is_zero f) eqn:Ef.
      * left. eexists. intros p self w.
        unfold synthesize_speech, try_except, bind, lift. cbn [get_json truthy].
        rewrite Ef. reflexivity.
      * right. eexists. intros p self w.
        unfold synthesize_speech, try_except, bind, lift. cbn [get_json truthy].
        rewrite Ef. reflexivity.
    + destruct (String.eqb s "") eqn:Es.
      * left. eexists. intros p self w.
        unfold synthesize_speech, try_except, bind, lift. cbn [get_json truthy].
        rewrite Es. reflexivity.
      * destruct (index 0 "text" s) eqn:Ei.
        -- right. eexists. intros p self w.
           unfold synthesize_speech, try_except, bind, lift.
           cbn [get_json truthy py_contains]. rewrite Es, Ei. reflexivity.
        -- left. eexists. intros p self w.
           unfold synthesize_speech, try_except, bind, lift.
           cbn [get_json truthy py_contains]. rewrite Es, Ei. reflexivity.
    + destruct l as [|x l].
      * left. eexists. intros p self w. reflexivity.
      * destruct (existsb (fun x => match x with
                                    | PStr s => String.eqb s "text"
                                    | _ => false
                                    end) (x :: l)) eqn:El.
        -- right. eexists. intros p self w.
           unfold synthesize_speech, try_except, bind, lift.
           cbn [get_json truthy py_contains negb]. rewrite El. reflexivity.
        -- left. eexists. intros p self w.
           unfold synthesize_speech, try_except, bind, lift.
           cbn [get_json truthy py_contains negb]. rewrite El. reflexivity.
    + destruct (Hd d). reflexivity.
  - right. exists (str e). intros p self w. reflexivity.
Qed.

(** A request whose body could not be read, or is not a JSON object (null,
    a boolean, a number, a string, an array), is refused before synthesis:
    it is answered 400 or 500, the same on every server and in every world,
    and nothing changes; a failure of [get_json] is answered 500 with its
    text. *)
Theorem body_that_is_no_object_is_refused (request : Request) :
  (forall d, get_json request <> Ok (PDict d)) ->
  ((exists msg, refused request (Jsonify msg 400)) \/
   (exists msg, refused request (Jsonify msg 500))) /\
  (forall e, get_json request = Raise e -> refused request (Jsonify (str e) 500)).
Proof.
  intros Hd. split; [exact (refused_unless_object request Hd)|].
  intros e He p self w. unfold synthesize_speech, try_except, bind, lift.
  rewrite He. reflexivity.
Qed.

Lemma valid_request_not_refused (request : Request) (text : string)
    (speed : float) (r : Response) :
  valid_request request text speed -> refused request r -> False.
Proof.
  intros Hv Hr.
  pose (self := {| port := 5002; host := "0.0.0.0"; temp_dir := "";
                   tts_model := None |}).
  pose (w := {| files := ∅; write_error := fun _ => None; calls := [] |}).
  specialize (Hr after_conditional self w).
  rewrite (synthesize_speech_without_model after_conditional self request text
             speed w Hv eq_refl eq_refl) in Hr.
  apply (f_equal (fun x => calls (snd x))) in Hr. discriminate Hr.
Qed.

Lemma request_cases (request : Request) :
  (exists text speed, valid_request request text speed) \/
  (exists msg, refused request (Jsonify msg 400)) \/
  (exists msg, refused request (Jsonify msg 500)).
Proof.
  destruct request as [[data|e]].
  2: { right; right. exists (str e). intros p self w. reflexivity. }
  destruct data as [| | | | | |d];
    try (right; apply refused_unless_object; intros d; discriminate).
  destruct (dict_lookup "text" d) as [raw|] eqn:Ht.
  2: { right; left. eexists. intros p self w.
       rewrite synthesize_speech_object, Ht. reflexivity. }
  destruct (is_str raw) eqn:Hraw.
  2: { right; right. eexists. intros p self w.
       rewrite synthesize_speech_object, Ht.
       destruct raw; try discriminate Hraw; reflexivity. }
  destruct raw as [| | | |s| |]; try discriminate Hraw.
  destruct (String.eqb (strip s) "") eqn:Hs.
  { right; left. eexists. intros p self w.
    rewrite synthesize_speech_object, Ht.
    unfold try_except, bind, lift, py_strip. rewrite Hs. reflexivity. }
  destruct (py_float (match dict_lookup "speed" d with
                      | Some x => x
                      | None => PFloat one_point_zero
                      end)) as [speed|e] eqn:Hf.
  - left. exists (strip s), speed.
    exact (ValidRequest {| get_json := Ok (PDict d) |} _ _ d s eq_refl Ht
             eq_refl Hs Hf).
  - right; right. exists (str e). intros p self w.
    rewrite synthesize_speech_object, Ht.
    unfold try_except, bind, lift, py_strip. rewrite Hs, Hf. reflexivity.
Qed.

(** Whether a request is refused before synthesis, and with which answer,
    depends on the request alone: every request either is valid, or is
    refused with a 400, or is refused with a 500, on every server and in
    every world alike; and a valid request is never refused. *)
Theorem refusal_depends_on_request_only (request : Request) :
  ((exists text speed, valid_request request text speed) \/
   (exists msg, refused request (Jsonify msg 400)) \/
   (exists msg, refused request (Jsonify msg 500))) /\
  (forall text speed r,
     valid_request request text speed -> ~ refused request r).
Proof.
  split; [exact (request_cases request)|].
  intros text speed r Hv Hr. exact (valid_request_not_refused _ _ _ _ Hv Hr).
Qed.

(** ** What a request does to the temp directory *)

(** [grows P w w']: from [w] to [w'] the write errors are the same, the log
    of provider calls has only been extended, no file has disappeared, and
    the files at paths outside [P] are the same. *)
Definition grows (P : string -> Prop) (w w' : World) : Prop :=
  write_error w' = write_error w /\
  (exists l, calls w' = calls w ++ l) /\
  (forall q, is_Some (files w !! q) -> is_Some (files w' !! q)) /\
  (forall q, ~ P q -> files w' !! q = files w !! q).

(** [keeps P m]: running [m] makes the world grow, whatever the outcome. *)
Definition keeps {A} (P : string -> Prop) (m : M A) : Prop :=
  forall w, grows P w (snd (m w)).

Lemma grows_refl (P : string -> Prop) (w : World) : grows P w w.
Proof.
  split; [reflexivity|]. split; [exists []; symmetry; apply app_nil_r|].
  split; auto.
Qed.

Lemma grows_trans (P : string -> Prop) (w1 w2 w3 : World) :
  grows P w1 w2 -> grows P w2 w3 -> grows P w1 w3.
Proof.
  intros (He1 & [l1 Hc1] & Hk1 & Hf1) (He2 & [l2 Hc2] & Hk2 & Hf2).
  split; [congruence|]. split.
  - exists (l1 ++ l2). rewrite Hc2, Hc1, app_assoc. reflexivity.
  - split; [auto|]. intros q Hq. rewrite Hf2, Hf1 by exact Hq. reflexivity.
Qed.

Lemma grows_insert (P : string -> Prop) (w : World) (path : string) (wav : Wav) :
  P path -> grows P w (set_files w (<[path := wav]> (files w))).
Proof.
  intros HP. split; [reflexivity|].
  split; [exists []; symmetry; apply app_nil_r|]. split.
  - intros q Hq. cbn [files set_files].
    destruct (decide (path = q)) as [->|Hne].
    + rewrite lookup_insert_eq. eauto.
    + rewrite lookup_insert_ne by exact Hne. exact Hq.
  - intros q Hq. cbn [files set_files]. apply lookup_insert_ne.
    intros ->. exact (Hq HP).
Qed.

Lemma keeps_ret {A} (P : string -> Prop) (a : A) : keeps P (ret a).
Proof. intros w. apply grows_refl. Qed.

Lemma keeps_raise {A} (P : string -> Prop) (e : exn) : keeps P (@raise _ A e).
Proof. intros w. apply grows_refl. Qed.

Lemma keeps_lift {A} (P : string -> Prop) (r : result A) : keeps P (lift r).
Proof. intros w. apply grows_refl. Qed.

Lemma keeps_bind {A B} (P : string -> Prop) (m : M A) (k : A -> M B) :
  keeps P m -> (forall a, keeps P (k a)) -> keeps P (bind m k).
Proof.
  intros Hm Hk w. unfold bind. specialize (Hm w).
  destruct (m w) as [[a|e] w1]; [|exact Hm].
  exact (grows_trans _ _ _ _ Hm (Hk a w1)).
Qed.

Lemma keeps_try_except {A} (P : string -> Prop) (m : M A) (h : exn -> M A) :
  keeps P m -> (forall e, keeps P (h e)) -> keeps P (try_except m h).
Proof.
  intros Hm Hh w. unfold try_except. specialize (Hm w).
  destruct (m w) as [[a|e] w1]; [exact Hm|].
  exact (grows_trans _ _ _ _ Hm (Hh e w1)).
Qed.

Lemma keeps_record_call (P : string -> Prop) (c : call) : keeps P (record_call c).
Proof.
  intros w. split; [reflexivity|]. split; [exists [c]; reflexivity|].
  split; auto.
Qed.

Lemma keeps_wave_open_w (P : string -> Prop) (path : string) :
  P path -> keeps P (wave_open_w path).
Proof.
  intros HP w. unfold wave_open_w.
  destruct (write_error w path); [apply grows_refl | apply grows_insert, HP].
Qed.

Lemma keeps_wave_update (P : string -> Prop) (path : string) (f : Wav -> Wav) :
  P path -> keeps P (wave_update path f).
Proof.
  intros HP w. unfold wave_update.
  destruct (files w !! path); [apply grows_insert, HP | apply grows_refl].
Qed.

Lemma keeps_for_range (P : string -> Prop) (n : nat) (body : M unit) :
  keeps P body -> keeps P (for_range n body).
Proof.
  intros Hb. induction n as [|n IH]; [apply keeps_ret|].
  apply keeps_bind; [exact Hb | intros _; exact IH].
Qed.

Lemma keeps_weaken {A} (P Q : string -> Prop) (m : M A) :
  (forall q, P q -> Q q) -> keeps P m -> keeps Q m.
Proof.
  intros HPQ Hm w. destruct (Hm w) as (He & Hc & Hk & Hf).
  repeat split; auto.
Qed.

Lemma keeps_generate_mock_audio (self : CoquiTTSServer) (text : string) :
  keeps (fun q => q = mock_path self text) (generate_mock_audio self text).
Proof.
  unfold generate_mock_audio.
  apply keeps_bind; [apply keeps_record_call | intros _].
  apply keeps_try_except; [|intros e; apply keeps_raise]. cbv zeta.
  apply keeps_bind; [apply keeps_wave_open_w; reflexivity | intros _].
  apply keeps_bind; [apply keeps_wave_update; reflexivity | intros _].
  apply keeps_bind; [apply keeps_wave_update; reflexivity | intros _].
  apply keeps_bind; [apply keeps_wave_update; reflexivity | intros _].
  apply keeps_bind; [|intros _; apply keeps_ret].
  apply keeps_for_range.
  apply keeps_bind; [apply keeps_lift | intros b].
  apply keeps_wave_update. reflexivity.
Qed.

(** The two paths derived from a text. *)
Definition own_path (self : CoquiTTSServer) (text : string) (q : string) : Prop :=
  q = mock_path self text \/ q = real_path self text.

Lemma keeps_generate_real_audio (self : CoquiTTSServer) (text : string)
    (speed : float) :
  keeps (own_path self text) (generate_real_audio self text speed).
Proof.
  assert (Hmock : keeps (own_path self text) (generate_mock_audio self text)).
  { apply (keeps_weaken (fun q => q = mock_path self text));
      [intros q ->; left; reflexivity | apply keeps_generate_mock_audio]. }
  unfold generate_real_audio.
  apply keeps_bind; [apply keeps_record_call | intros _].
  apply keeps_try_except; [|intros e; exact Hmock]. cbv zeta.
  apply keeps_bind; [|intros _; apply keeps_ret].
  unfold tts_to_file. destruct (tts_model self); [|apply keeps_raise].
  apply keeps_bind; [apply keeps_lift | intros wav].
  apply keeps_bind; [apply keeps_wave_open_w; right; reflexivity | intros _].
  apply keeps_wave_update. right; reflexivity.
Qed.

Lemma keeps_provide_audio (line117 : placement) (self : CoquiTTSServer)
    (text : string) (speed : float) :
  keeps (own_path self text) (provide_audio line117 self text speed).
Proof.
  assert (Hmock : keeps (own_path self text) (generate_mock_audio self text)).
  { apply (keeps_weaken (fun q => q = mock_path self text));
      [intros q ->; left; reflexivity | apply keeps_generate_mock_audio]. }
  unfold provide_audio. destruct line117.
  - apply keeps_bind; [|intros _; exact Hmock].
    destruct (tts_model self); [|apply keeps_ret].
    apply keeps_bind; [apply keeps_generate_real_audio | intros _; apply keeps_ret].
  - destruct (tts_model self); [apply keeps_generate_real_audio | exact Hmock].
Qed.

Lemma send_audio_reads_only (audio_path : string) (w : World) :
  snd (send_audio audio_path w) = w.
Proof.
  unfold send_audio, bind, path_exists, send_file, ret.
  destruct (String.eqb audio_path "" || negb _); [reflexivity|].
  destruct (files w !! audio_path); reflexivity.
Qed.

Lemma keeps_send_audio (P : string -> Prop) (audio_path : string) :
  keeps P (send_audio audio_path).
Proof. intros w. rewrite send_audio_reads_only. apply grows_refl. Qed.

Lemma keeps_synthesize_speech (line117 : placement) (self : CoquiTTSServer)
    (request : Request) :
  keeps (fun q => exists text, own_path self text q)
    (synthesize_speech line117 self request).
Proof.
  unfold synthesize_speech.
  apply keeps_try_except; [|intros e; apply keeps_ret].
  apply keeps_bind; [apply keeps_lift | intros data].
  apply keeps_bind.
  { destruct (negb (truthy data)); [apply keeps_ret|].
    apply keeps_bind; [apply keeps_lift | intros b; apply keeps_ret]. }
  intros missing. destruct missing; [apply keeps_ret|].
  apply keeps_bind; [apply keeps_lift | intros raw].
  apply keeps_bind; [apply keeps_lift | intros text].
  destruct (String.eqb text ""); [apply keeps_ret|].
  apply keeps_bind; [apply keeps_lift | intros language].
  apply keeps_bind; [apply keeps_lift | intros sp].
  apply keeps_bind; [apply keeps_lift | intros speed].
  apply keeps_bind; [|intros audio_path; apply keeps_send_audio].
  apply (keeps_weaken (own_path self text)); [eauto | apply keeps_provide_audio].
Qed.

(** Files accumulate: whatever the request and its outcome, every file
    that was in the temp directory before is still there after, the log of
    provider calls has only been extended, and what can be written has not
    changed. *)
Theorem handler_never_deletes (line117 : placement) (self : CoquiTTSServer)
    (request : Request) (w : World) :
  (forall q, is_Some (files w !! q) ->
             is_Some (files (snd (synthesize_speech line117 self request w)) !! q)) /\
  (exists l, calls (snd (synthesize_speech line117 self request w)) = calls w ++ l) /\
  write_error (snd (synthesize_speech line117 self request w)) = write_error w.
Proof.
  destruct (keeps_synthesize_speech line117 self request w) as (He & Hc & Hk & _).
  auto.
Qed.

(** A valid request changes no file other than the two derived from its
    own stripped text: every other path holds after the request what it
    held before. *)
Theorem handler_touches_only_its_two_paths (line117 : placement)
    (self : CoquiTTSServer) (request : Request) (text : string) (speed : float)
    (w : World) (q : string) :
  valid_request request text speed ->
  q <> mock_path self text ->
  q <> real_path self text ->
  files (snd (synthesize_speech line117 self request w)) !! q = files w !! q.
Proof.
  intros Hv Hm Hr. rewrite (synthesize_speech_valid _ _ _ _ _ _ Hv).
  assert (Hk : keeps (own_path self text)
                 (try_except (audio_path <- provide_audio line117 self text speed ;;
                              send_audio audio_path)
                    (fun e => ret (Jsonify (str e) 500)))).
  { apply keeps_try_except; [|intros e; apply keeps_ret].
    apply keeps_bind; [apply keeps_provide_audio | intros p; apply keeps_send_audio]. }
  destruct (Hk w) as (_ & _ & _ & Hf). apply Hf.
  intros [E|E]; [exact (Hm E) | exact (Hr E)].
Qed.

(** ** The outcomes of the providers *)

Lemma tts_raises_or_saves (self : CoquiTTSServer) (text : string)
    (speed : float) (w : World) :
  tts_raises self text speed w \/
  exists tts wav, tts_model self = Some tts /\
                  synthesize tts text speed = Ok wav /\
                  write_error w (real_path self text) = None.
Proof.
  destruct (tts_model self) as [tts|] eqn:Hm.
  2: { left. apply raises_no_handle, Hm. }
  destruct (synthesize tts text speed) as [wav|e] eqn:Hs.
  2: { left. exact (raises_in_model _ _ _ _ tts e Hm Hs). }
  destruct (write_error w (real_path self text)) as [e|] eqn:Hw.
  - left. exact (raises_on_save _ _ _ _ tts wav e Hm Hs Hw).
  - right. eauto.
Qed.

(** A silence provider that returns has returned its own path, with the
    silent file there. *)
Lemma generate_mock_audio_returns (self : CoquiTTSServer) (text : string)
    (w w' : World) (path : string) :
  generate_mock_audio self text w = (Ok path, w') ->
  path = mock_path self text /\ files w' !! path = Some silent_wav.
Proof.
  destruct (write_error w (mock_path self text)) as [e|] eqn:Hw.
  - rewrite (generate_mock_audio_raises _ _ _ e Hw). discriminate.
  - rewrite (generate_mock_audio_writes _ _ _ Hw). intros E.
    injection E as <- <-. split; [reflexivity | apply lookup_insert_eq].
Qed.

(** [generate_real_audio] has three outcomes.  It returns its own path with
    the synthesized audio saved there; or, the synthesis having raised, it
    returns the mock path with the silent file there; or, the synthesis
    having raised and the silent file being refused, it raises the error of
    that last write, leaving the files as they were.  It never raises the
    error of the model. *)
Theorem generate_real_audio_outcomes (self : CoquiTTSServer) (text : string)
    (speed : float) (w : World) :
  (exists tts wav w',
     tts_model self = Some tts /\ synthesize tts text speed = Ok wav /\
     generate_real_audio self text speed w = (Ok (real_path self text), w') /\
     files w' = <[real_path self text := wav]> (files w)) \/
  (tts_raises self text speed w /\
   exists w',
     generate_real_audio self text speed w = (Ok (mock_path self text), w') /\
     files w' = <[mock_path self text := silent_wav]> (files w)) \/
  (tts_raises self text speed w /\
   exists e w',
     write_error w (mock_path self text) = Some e /\
     generate_real_audio self text speed w = (Raise e, w') /\
     files w' = files w).
Proof.
  destruct (tts_raises_or_saves self text speed w)
    as [Hr|(tts & wav & Hm & Hs & Hw)].
  - right. rewrite (generate_real_audio_falls_back _ _ _ _ Hr).
    destruct (write_error w (mock_path self text)) as [e|] eqn:Hw.
    + right. split; [exact Hr|]. exists e.
      rewrite generate_mock_audio_raises with (e := e) by exact Hw.
      eexists. repeat split.
    + left. split; [exact Hr|].
      rewrite generate_mock_audio_writes by exact Hw.
      eexists. split; reflexivity.
  - left. exists tts, wav.
    rewrite (generate_real_audio_writes self tts text speed wav w Hm Hs Hw).
    eexists. repeat split; assumption.
Qed.

Lemma generate_real_audio_returns (self : CoquiTTSServer) (text : string)
    (speed : float) (w w' : World) (path : string) :
  generate_real_audio self text speed w = (Ok path, w') ->
  String.eqb path "" = false /\ is_Some (files w' !! path).
Proof.
  destruct (tts_raises_or_saves self text speed w)
    as [Hr|(tts & wav & Hm & Hs & Hw)].
  - rewrite (generate_real_audio_falls_back _ _ _ _ Hr). intros E.
    apply generate_mock_audio_returns in E as [-> Hf].
    split; [apply mock_path_nonempty | eauto].
  - rewrite (generate_real_audio_writes self tts text speed wav w Hm Hs Hw).
    intros E. injection E as <- <-.
    split; [apply real_path_nonempty|]. cbn [files].
    rewrite lookup_insert_eq. eauto.
Qed.

(** Whenever the provider calls of the handler return a path, a file is at
    that path and it is the one sent: the answer 500 with the message
    Failed to generate speech, of lines 119 and 120, is never given. *)
Theorem provided_audio_is_sent (line117 : placement) (self : CoquiTTSServer)
    (text : string) (speed : float) (w w' : World) (path : string) :
  provide_audio line117 self text speed w = (Ok path, w') ->
  exists wav,
    files w' !! path = Some wav /\
    send_audio path w' = (Ok (SendFile wav "audio/wav" "speech.wav"), w').
Proof.
  intros Hp.
  assert (Hq : String.eqb path "" = false /\ is_Some (files w' !! path)).
  { unfold provide_audio in Hp. destruct line117.
    - unfold bind at 1 in Hp.
      destruct ((match tts_model self with
                 | Some _ => generate_real_audio self text speed ;;; ret tt
                 | None => ret tt
                 end) w) as [[u|e] w1]; [|discriminate Hp].
      apply generate_mock_audio_returns in Hp as [-> Hf].
      split; [apply mock_path_nonempty | eauto].
    - destruct (tts_model self).
      + exact (generate_real_audio_returns _ _ _ _ _ _ Hp).
      + apply generate_mock_audio_returns in Hp as [-> Hf].
        split; [apply mock_path_nonempty | eauto]. }
  destruct Hq as [Hne [wav Hf]]. exists wav. split; [exact Hf|].
  exact (send_audio_existing path wav w' Hne Hf).
Qed.

(** ** Repeating a request *)

(** With no model loaded, a request sent a second time gets the answer it
    got the first time and leaves the files as the first left them. *)
Theorem repeated_request_without_model (line117 : placement)
    (self : CoquiTTSServer) (request : Request) (w : World) :
  tts_model self = None ->
  fst (synthesize_speech line117 self request
         (snd (synthesize_speech line117 self request w)))
  = fst (synthesize_speech line117 self request w) /\
  files (snd (synthesize_speech line117 self request
                (snd (synthesize_speech line117 self request w))))
  = files (snd (synthesize_speech line117 self request w)).
Proof.
  intros Hm.
  destruct (request_cases request) as [(text & speed & Hv)|[[msg Hr]|[msg Hr]]].
  - destruct (write_error w (mock_path self text)) as [e|] eqn:Hw.
    + assert (Hp : forall w0, write_error w0 = write_error w ->
                synthesize_speech line117 self request w0
                = (Ok (Jsonify (str e) 500),
                   {| files := files w0; write_error := write_error w0;
                      calls := calls w0 ++ [CallMock text] |})).
      { intros w0 E.
        apply (synthesize_speech_catches _ _ _ text speed); [exact Hv|].
        rewrite provide_audio_without_model by exact Hm.
        apply generate_mock_audio_raises. rewrite E. exact Hw. }
      rewrite (Hp w eq_refl). cbn [snd fst].
      rewrite (Hp {| files := files w; write_error := write_error w;
                     calls := calls w ++ [CallMock text] |} eq_refl).
      split; reflexivity.
    + rewrite (synthesize_speech_without_model line117 self request text speed
                 w Hv Hm Hw). cbn [snd fst].
      rewrite (synthesize_speech_without_model line117 self request text speed
                 {| files := <[mock_path self text := silent_wav]> (files w);
                    write_error := write_error w;
                    calls := calls w ++ [CallMock text] |} Hv Hm Hw).
      cbn [snd fst files].
      split; [reflexivity | apply insert_insert_eq].
  - rewrite !(Hr line117 self). split; reflexivity.
  - rewrite !(Hr line117 self). split; reflexivity.
Qed.

End Requests.

(** * The two scripts: install_coqui.py and simple_tts_test.py

    Both scripts print, run external things (pip through the shell, the TTS
    library) and catch exceptions by class.  An exception is here a value
    with its class, as far as the [except] clauses tell classes apart; the
    external things are inputs: what the shell does with a command, what
    importing the library and loading a model give. *)

Module Script.

(** The classes the [except] clauses of the scripts name; a subclass counts
    as its class. *)
Inductive exc_class : Type :=
| ImportError
| CalledProcessError
| OtherException.

(** An exception: its class, [str(e)], and [e.stderr] (of a
    CalledProcessError). *)
Record pyexc := {
  kind : exc_class;
  message : string;
  stderr : string
}.

Inductive outcome (A : Type) : Type :=
| Returned (a : A)
| Raised (e : pyexc).
Arguments Returned {A} a.
Arguments Raised {A} e.

Section IO.
Context {St : Type}.

Definition IO (A : Type) : Type := St -> outcome A * St.

Definition pure {A} (a : A) : IO A := fun s => (Returned a, s).

Definition throw {A} (e : pyexc) : IO A := fun s => (Raised e, s).

Definition andthen {A B} (m : IO A) (k : A -> IO B) : IO B :=
  fun s =>
    match m s with
    | (Returned a, s') => k a s'
    | (Raised e, s') => (Raised e, s')
    end.

(** [try: m] followed by [except] clauses: [h e] is the body of the first
    clause that matches [e], or [None] when none does and [e] goes on. *)
Definition try_catch {A} (m : IO A) (h : pyexc -> option (IO A)) : IO A :=
  fun s =>
    match m s with
    | (Returned a, s') => (Returned a, s')
    | (Raised e, s') =>
        match h e with
        | Some k => k s'
        | None => (Raised e, s')
        end
    end.

(** [for x in l: body x] *)
Fixpoint for_each {A} (l : list A) (body : A -> IO unit) : IO unit :=
  match l with
  | [] => pure tt
  | x :: l' => andthen (body x) (fun _ => for_each l' body)
  end.

End IO.

Declare Scope io_scope.
Delimit Scope io_scope with io.
Notation "x <~ m ;; k" := (andthen m (fun x => k))
  (at level 100, m at next level, right associativity) : io_scope.
Notation "m >> k" := (andthen m (fun _ => k))
  (at level 100, right associativity) : io_scope.

(** The line feed inside a printed text. *)
Definition LF : string := String (ascii_of_nat 10) EmptyString.

End Script.

(** ** install_coqui.py *)

Module Installer.
Import Script.
Local Open Scope io_scope.

Section Machine.

(** The system the shell commands act on, and what running a command
    through [subprocess.run(command, shell=True, check=True, ...)] does: it
    returns, or raises (a CalledProcessError when the exit status is not
    zero). *)
Variable System : Type.
Variable subprocess_run : string -> System -> outcome unit * System.

(** The interpreter: [sys.version_info] and [sys.version]. *)
Record Python := {
  major : Z;
  minor : Z;
  micro : Z;
  version_text : string
}.

(** What importing [TTS.api] gives: the constructor [TTS], which loads the
    model of a given name. *)
Definition TTS_class : Type := string -> outcome unit.
Variable import_TTS : outcome TTS_class.

(** The state of a run: the system, the lines printed so far, and the
    commands handed to the shell so far. *)
Record Machine := {
  system : System;
  stdout : list string;
  commands : list string
}.

Definition print (line : string) : IO (St := Machine) unit :=
  fun s => (Returned tt,
            {| system := system s; stdout := stdout s ++ [line];
               commands := commands s |}).

Definition shell (command : string) : IO (St := Machine) unit :=
  fun s =>
    let (r, sys') := subprocess_run command (system s) in
    (r, {| system := sys'; stdout := stdout s;
           commands := commands s ++ [command] |}).

(** [run_command(command, description)] *)
Definition run_command (command description : string) : IO bool :=
  print ("🔄 " +:+ description +:+ "...") >>
  try_catch
    (shell command >>
     print ("✅ " +:+ description +:+ " completed") >>
     pure true)
    (fun e =>
       match kind e with
       | CalledProcessError =>
           Some (print ("❌ " +:+ description +:+ " failed:") >>
                 print ("   Error: " +:+ stderr e) >>
                 pure false)
       | _ => None
       end).

(** [check_python_version()] *)
Definition check_python_version (py : Python) : IO bool :=
  if (major py <? 3) || ((major py =? 3) && (minor py <? 8))
  then print ("❌ Python 3.8+ required. Current version: " +:+ version_text py) >>
       pure false
  else print ("✅ Python version OK: " +:+ str_of_int (major py) +:+ "."
              +:+ str_of_int (minor py) +:+ "." +:+ str_of_int (micro py)) >>
       pure true.

Definition packages : list string :=
  ["torch"; "torchaudio"; "TTS"; "flask"; "flask-cors"].

Fixpoint repeat_string (s : string) (n : nat) : string :=
  match n with
  | O => ""
  | S n' => s +:+ repeat_string s n'
  end.

(** [install_coqui_tts()] *)
Definition install_coqui_tts (py : Python) : IO bool :=
  print "🎯 Installing Coqui TTS for Free High-Quality Text-to-Speech" >>
  print (repeat_string "=" 60) >>
  ok <~ check_python_version py ;;
  if negb ok then pure false else
  for_each packages (fun package =>
    installed <~ run_command ("pip3 install " +:+ package)
                             ("Installing " +:+ package) ;;
    if negb installed
    then print ("⚠️  Failed to install " +:+ package +:+ ", but continuing...")
    else pure tt) >>
  print (LF +:+ "🎉 Installation completed!") >>
  print (LF +:+ "📋 Next steps:") >>
  print "1. Run the TTS server: python coqui_server.py" >>
  print "2. Visit: http://localhost:5173/comprehensive-tts-test.html" >>
  print "3. Test Coqui TTS with real high-quality voices!" >>
  print (LF +:+ "💡 The server will download models on first use (~1GB)") >>
  pure true.

(** [test_installation()] *)
Definition test_installation : IO bool :=
  print (LF +:+ "🧪 Testing Coqui TTS installation...") >>
  try_catch
    (TTS <~ (fun s => (import_TTS, s)) ;;
     print "✅ TTS library imported successfully" >>
     print "🔄 Testing with a small model..." >>
     (fun s => (TTS "tts_models/en/ljspeech/tacotron2-DDC", s)) >>
     print "✅ Model loaded successfully" >>
     print "✅ Coqui TTS is ready to use!" >>
     pure true)
    (fun e =>
       match kind e with
       | ImportError => Some (print "❌ TTS library not found" >> pure false)
       | _ =>
           Some (print ("⚠️  TTS test failed: " +:+ message e) >>
                 print "💡 This might be normal - models will download when needed" >>
                 pure true)
       end).

(** The body of [if __name__ == "__main__":]. *)
Definition main (py : Python) : IO unit :=
  print "🚀 Coqui TTS Free Installation Script" >>
  print ("=====================================" +:+ LF) >>
  installed <~ install_coqui_tts py ;;
  if installed then
    test_installation >>
    print (LF +:+ "🎯 Ready to start!") >>
    print "Run: python coqui_server.py"
  else
    print (LF +:+ "❌ Installation failed") >>
    print "💡 Try manual installation:" >>
    print "   pip3 install TTS flask flask-cors torch torchaudio".

End Machine.

Arguments system {System} _.
Arguments stdout {System} _.
Arguments commands {System} _.
Arguments print {System} line _.
Arguments shell {System} subprocess_run command _.
Arguments run_command {System} subprocess_run command description _.
Arguments check_python_version {System} py _.
Arguments install_coqui_tts {System} subprocess_run py _.
Arguments test_installation {System} import_TTS _.
Arguments main {System} subprocess_run import_TTS py _.

End Installer.

Module InstallerFacts.
Import Script Installer.
Local Open Scope io_scope.

Section Facts.
Variable System : Type.
Variable subprocess_run : string -> System -> outcome unit * System.
Variable import_TTS : outcome TTS_class.


(** The versions from 3.8 on, in the order of [(major, minor)] pairs. *)
Definition recent (py : Python) : Prop :=
  3 < major py \/ (major py = 3 /\ 8 <= minor py).

(** The shell raises nothing but CalledProcessError. *)
Definition fails_by_status_only : Prop :=
  forall command sys e sys',
    subprocess_run command sys = (Raised e, sys') -> kind e = CalledProcessError.

(** A state reached from [s] by printing and by running commands [cs]. *)
Definition after (s : Machine System) (cs : list string) (s' : Machine System) : Prop :=
  commands s' = commands s ++ cs /\ exists out, stdout s' = stdout s ++ out.

Lemma after_refl (s : Machine System) : after s [] s.
Proof. split; [|exists []]; symmetry; apply app_nil_r. Qed.

Lemma after_trans (s1 s2 s3 : Machine System) (cs1 cs2 : list string) :
  after s1 cs1 s2 -> after s2 cs2 s3 -> after s1 (cs1 ++ cs2) s3.
Proof.
  intros [Hc1 [o1 Ho1]] [Hc2 [o2 Ho2]]. split.
  - rewrite Hc2, Hc1, app_assoc. reflexivity.
  - exists (o1 ++ o2). rewrite Ho2, Ho1, app_assoc. reflexivity.
Qed.

Lemma after_print (s : Machine System) (line : string) :
  after s [] (snd (print line s)).
Proof. split; [symmetry; apply app_nil_r | exists [line]; reflexivity]. Qed.

Lemma check_python_version_spec (py : Python) (s : Machine System) :
  exists b line,
    check_python_version py s
    = (Returned b, {| system := system s; stdout := stdout s ++ [line];
                      commands := commands s |}) /\
    (b = true <-> recent py).
Proof.
  unfold Installer.check_python_version, recent.
  destruct ((major py <? 3) || ((major py =? 3) && (minor py <? 8))) eqn:E.
  - eexists false, _. split; [reflexivity|]. split; [discriminate|].
    intros Hr. exfalso.
    apply orb_true_iff in E as [E|E].
    + apply Z.ltb_lt in E. lia.
    + apply andb_true_iff in E as [E1 E2].
      apply Z.eqb_eq in E1. apply Z.ltb_lt in E2. lia.
  - eexists true, _. split; [reflexivity|]. split; [|reflexivity].
    intros _. apply orb_false_iff in E as [E1 E2].
    apply Z.ltb_ge in E1. apply andb_false_iff in E2 as [E2|E2].
    + apply Z.eqb_neq in E2. lia.
    + apply Z.ltb_ge in E2. lia.
Qed.

(** [check_python_version] accepts exactly the versions from 3.8 on, in the
    order of [(major, minor)] pairs: every 3.x with x at least 8 and every
    later major version, whatever the micro version; it prints one line and
    runs nothing. *)
Theorem check_python_version_threshold (py : Python) (s : Machine System) :
  exists b s',
    check_python_version py s = (Returned b, s') /\
    (b = true <-> 3 < major py \/ (major py = 3 /\ 8 <= minor py)) /\
    system s' = system s /\ commands s' = commands s /\
    length (stdout s') = S (length (stdout s)).
Proof.
  destruct (check_python_version_spec py s) as (b & line & E & Hb).
  exists b; eexists. split; [exact E|]. split; [exact Hb|].
  cbn [system commands stdout]. rewrite length_app, Nat.add_comm. auto.
Qed.

Lemma run_command_spec (command description : string) (s : Machine System) :
  fails_by_status_only ->
  exists b s', run_command subprocess_run command description s = (Returned b, s') /\
               after s [command] s'.
Proof.
  intros Hf. unfold Installer.run_command, andthen, try_catch, shell, Installer.print.
  cbn [system stdout commands].
  destruct (subprocess_run command (system s)) as [[u|e] sys'] eqn:E.
  - eexists true, _. split; [reflexivity|]. split; [reflexivity|].
    cbn [stdout]. eexists. rewrite <- app_assoc. reflexivity.
  - rewrite (Hf _ _ _ _ E).
    eexists false, _. split; [reflexivity|]. split; [reflexivity|].
    cbn [stdout]. eexists. rewrite <- !app_assoc. reflexivity.
Qed.

(** The loop over the packages: every command is run, in order, whether
    the ones before it succeeded or not. *)
Lemma install_loop (pkgs : list string) :
  fails_by_status_only ->
  forall s : Machine System,
    exists s',
      for_each pkgs (fun package =>
        installed <~ run_command subprocess_run ("pip3 install " +:+ package)
                                 ("Installing " +:+ package) ;;
        if negb installed
        then print ("⚠️  Failed to install " +:+ package +:+ ", but continuing...")
        else pure tt) s
      = (Returned tt, s') /\
      after s (map (fun package => "pip3 install " +:+ package) pkgs) s'.
Proof.
  intros Hf. induction pkgs as [|p pkgs IH]; intros s.
  - exists s. split; [reflexivity | apply after_refl].
  - cbn [for_each map]. unfold andthen at 1. unfold andthen at 1.
    destruct (run_command_spec ("pip3 install " +:+ p) ("Installing " +:+ p) s Hf)
      as (b & s1 & E1 & H1).
    rewrite E1.
    assert (H2 : exists s2,
               (if negb b
                then print ("⚠️  Failed to install " +:+ p +:+ ", but continuing...")
                else pure tt) s1 = (Returned tt, s2) /\ after s1 [] s2).
    { destruct b; cbn [negb].
      - exists s1. split; [reflexivity | apply after_refl].
      - eexists. split; [reflexivity | apply after_print]. }
    destruct H2 as (s2 & E2 & H2). rewrite E2.
    destruct (IH s2) as (s3 & E3 & H3). exists s3. split; [exact E3|].
    change (("pip3 install " +:+ p) :: map (fun package => "pip3 install " +:+ package) pkgs)
      with ([("pip3 install " +:+ p)] ++ map (fun package => "pip3 install " +:+ package) pkgs).
    apply (after_trans s s2 s3); [|exact H3].
    rewrite <- (app_nil_r [("pip3 install " +:+ p)]).
    exact (after_trans s s1 s2 _ _ H1 H2).
Qed.

Lemma install_coqui_tts_spec (py : Python) (s : Machine System) :
  fails_by_status_only ->
  exists b s',
    install_coqui_tts subprocess_run py s = (Returned b, s') /\
    (b = true <-> recent py) /\
    after s (if b then map (fun package => "pip3 install " +:+ package) packages
             else []) s' /\
    (b = true -> In (LF +:+ "🎉 Installation completed!") (stdout s')) /\
    (b = false -> system s' = system s).
Proof.
  intros Hf. unfold Installer.install_coqui_tts.
  unfold andthen at 1. unfold andthen at 1. unfold andthen at 1.
  cbn [Installer.print fst snd].
  match goal with |- context [check_python_version py ?s0] =>
    destruct (check_python_version_spec py s0) as (b & line & E & Hb); rewrite E
  end.
  destruct b; cbn [negb].
  - unfold andthen at 1.
    match goal with |- context [for_each packages ?body ?s0] =>
      destruct (install_loop packages Hf s0) as (s1 & E1 & [Hc1 [o1 Ho1]]);
      rewrite E1
    end.
    cbn [commands stdout] in Hc1, Ho1.
    eexists true, _. split; [reflexivity|]. split; [exact Hb|].
    cbn [Installer.print andthen]. split; [|split; [|discriminate]].
    + split; cbn [commands stdout]; [exact Hc1|].
      rewrite Ho1. eexists. rewrite <- !app_assoc. reflexivity.
    + intros _. cbn [stdout]. rewrite !in_app_iff. cbn [In]. tauto.
  - eexists false, _. split; [reflexivity|]. split; [exact Hb|].
    split; [|split; [discriminate | reflexivity]].
    split; cbn [commands stdout]; [symmetry; apply app_nil_r|].
    eexists. rewrite <- !app_assoc. reflexivity.
Qed.

(** Provided the shell raises nothing but CalledProcessError,
    [install_coqui_tts] returns True exactly on a Python from 3.8 on, and
    then it has handed the five pip commands to the shell, in the order
    torch, torchaudio, TTS, flask, flask-cors, whether or not any of them
    succeeded, and has printed that the installation completed; on an
    older Python it returns False, having run no command and left the
    system alone. *)
Theorem install_runs_every_pip_command (py : Python) (s : Machine System) :
  fails_by_status_only ->
  exists b s',
    install_coqui_tts subprocess_run py s = (Returned b, s') /\
    (b = true <-> recent py) /\
    commands s' = commands s ++
      (if b then ["pip3 install torch"; "pip3 install torchaudio";
                  "pip3 install TTS"; "pip3 install flask";
                  "pip3 install flask-cors"]
       else []) /\
    (b = true -> In (LF +:+ "🎉 Installation completed!") (stdout s')) /\
    (b = false -> system s' = system s).
Proof.
  intros Hf.
  destruct (install_coqui_tts_spec py s Hf) as (b & s' & E & Hb & [Hc _] & Hd & Hs).
  exists b, s'. split; [exact E|]. split; [exact Hb|].
  split; [|split; assumption].
  rewrite Hc. destruct b; reflexivity.
Qed.

Ltac printed :=
  cbn [stdout system commands];
  split; [reflexivity|]; split; [reflexivity|];
  eexists; rewrite <- !app_assoc; reflexivity.

Lemma test_installation_spec (s : Machine System) :
  exists b s',
    test_installation import_TTS s = (Returned b, s') /\
    (system s' = system s /\ commands s' = commands s /\
     exists out, stdout s' = stdout s ++ out) /\
    (b = false <->
     (exists e, import_TTS = Raised e /\ kind e = ImportError) \/
     (exists TTS e, import_TTS = Returned TTS /\
                    TTS "tts_models/en/ljspeech/tacotron2-DDC" = Raised e /\
                    kind e = ImportError)).
Proof.
  unfold Installer.test_installation, andthen, try_catch, Installer.print.
  cbn [system stdout commands].
  destruct import_TTS as [TTS|e] eqn:Ei.
  - destruct (TTS "tts_models/en/ljspeech/tacotron2-DDC") as [u|e] eqn:Ec.
    + eexists true, _. split; [reflexivity|]. split; [printed|].
      split; [discriminate|].
      intros [(e & E & _)|(T & e & E1 & E2 & _)]; [discriminate E|].
      injection E1 as <-. rewrite Ec in E2. discriminate E2.
    + destruct (kind e) eqn:Ek.
      * eexists false, _. split; [reflexivity|]. split; [printed|].
        split; [|reflexivity]. intros _. right. exists TTS, e. auto.
      * eexists true, _. split; [reflexivity|]. split; [printed|].
        split; [discriminate|].
        intros [(e' & E & _)|(T & e' & E1 & E2 & Hk)]; [discriminate E|].
        injection E1 as <-. rewrite Ec in E2. injection E2 as <-.
        rewrite Ek in Hk. discriminate Hk.
      * eexists true, _. split; [reflexivity|]. split; [printed|].
        split; [discriminate|].
        intros [(e' & E & _)|(T & e' & E1 & E2 & Hk)]; [discriminate E|].
        injection E1 as <-. rewrite Ec in E2. injection E2 as <-.
        rewrite Ek in Hk. discriminate Hk.
  - destruct (kind e) eqn:Ek.
    + eexists false, _. split; [reflexivity|]. split; [printed|].
      split; [|reflexivity]. intros _. left. exists e. auto.
    + eexists true, _. split; [reflexivity|]. split; [printed|].
      split; [discriminate|].
      intros [(e' & E & Hk)|(T & e' & E1 & _)]; [|discriminate E1].
      injection E as <-. rewrite Ek in Hk. discriminate Hk.
    + eexists true, _. split; [reflexivity|]. split; [printed|].
      split; [discriminate|].
      intros [(e' & E & Hk)|(T & e' & E1 & _)]; [|discriminate E1].
      injection E as <-. rewrite Ek in Hk. discriminate Hk.
Qed.

(** [test_installation] never raises and runs no command.  It returns
    False exactly when the import of the library, or the loading of the
    model after it, raises an ImportError; when either fails with any other
    exception it returns True, as it does when both succeed. *)
Theorem test_installation_fails_only_on_import_error (s : Machine System) :
  exists b s',
    test_installation import_TTS s = (Returned b, s') /\
    system s' = system s /\ commands s' = commands s /\
    (b = false <->
     (exists e, import_TTS = Raised e /\ kind e = ImportError) \/
     (exists TTS e, import_TTS = Returned TTS /\
                    TTS "tts_models/en/ljspeech/tacotron2-DDC" = Raised e /\
                    kind e = ImportError)).
Proof.
  destruct (test_installation_spec s) as (b & s' & E & (Hs & Hc & _) & Hb).
  exists b, s'. auto.
Qed.

(** Provided the shell raises nothing but CalledProcessError, the script
    ends, on a Python from 3.8 on, with the lines Ready to start! and Run:
    python coqui_server.py, even when every pip command failed and the
    model could not be loaded; on an older Python it ends with the three
    lines of the failed installation, having run no command. *)
Theorem main_reports_ready_on_recent_python (py : Python) (s : Machine System) :
  fails_by_status_only ->
  exists s' out,
    main subprocess_run import_TTS py s = (Returned tt, s') /\
    (recent py ->
     stdout s' = out ++ [LF +:+ "🎯 Ready to start!"; "Run: python coqui_server.py"] /\
     commands s' = commands s ++
       map (fun package => "pip3 install " +:+ package) packages) /\
    (~ recent py ->
     stdout s' = out ++ [LF +:+ "❌ Installation failed";
                         "💡 Try manual installation:";
                         "   pip3 install TTS flask flask-cors torch torchaudio"] /\
     commands s' = commands s).
Proof.
  intros Hf. unfold Installer.main.
  unfold andthen at 1. unfold andthen at 1. unfold andthen at 1.
  cbn [Installer.print fst snd].
  match goal with |- context [install_coqui_tts subprocess_run py ?s0] =>
    destruct (install_coqui_tts_spec py s0 Hf)
      as (b & s1 & E & Hb & [Hc [o1 Ho1]] & _ & _); rewrite E
  end.
  cbn [commands stdout] in Hc, Ho1.
  destruct b.
  - unfold andthen at 1.
    destruct (test_installation_spec s1) as (t & s2 & E2 & (_ & Hc2 & _) & _).
    rewrite E2. cbn [andthen Installer.print stdout system commands].
    eexists _, (stdout s2). split; [reflexivity|]. cbn [stdout commands]. split.
    + intros _. split; [|rewrite Hc2; exact Hc].
      rewrite <- app_assoc. reflexivity.
    + intros Hn. destruct Hn. apply Hb. reflexivity.
  - cbn [andthen Installer.print stdout system commands].
    eexists _, (stdout s1). split; [reflexivity|]. cbn [stdout commands]. split.
    + intros Hr. apply Hb in Hr. discriminate Hr.
    + intros _. split; [|rewrite Hc; apply app_nil_r].
      rewrite <- !app_assoc. reflexivity.
Qed.

End Facts.
End InstallerFacts.

(** ** simple_tts_test.py *)

Module SmokeTest.
Import Script.
Local Open Scope io_scope.

(** A loaded model: [tts_to_file(text=, file_path=)] does to the disk what
    the library does, and returns or raises. *)
Record Voice := {
  tts_to_file : string -> string -> gmap string (list Byte.byte) ->
                outcome unit * gmap string (list Byte.byte)
}.

Definition TTS_class : Type := string -> outcome Voice.

(** The state of a run: the files on disk, by content, and the lines
    printed so far. *)
Record Bench := {
  disk : gmap string (list Byte.byte);
  stdout : list string
}.

Section Bench.

(** What importing [TTS.api] gives, and the name that
    [tempfile.NamedTemporaryFile(suffix='.wav', delete=False)] picks on a
    given disk, or the exception it raises. *)
Variable import_TTS : outcome TTS_class.
Variable temporary_name : gmap string (list Byte.byte) -> outcome string.

Definition print (line : string) : IO (St := Bench) unit :=
  fun s => (Returned tt, {| disk := disk s; stdout := stdout s ++ [line] |}).

(** The [with] block: the file is created empty, and closed. *)
Definition named_temporary_file : IO string :=
  fun s =>
    match temporary_name (disk s) with
    | Returned name =>
        (Returned name, {| disk := <[name := []]> (disk s); stdout := stdout s |})
    | Raised e => (Raised e, s)
    end.

Definition on_disk
    (f : gmap string (list Byte.byte) -> outcome unit * gmap string (list Byte.byte))
    : IO unit :=
  fun s => let (r, d) := f (disk s) in (r, {| disk := d; stdout := stdout s |}).

(** [os.path.exists(path) and os.path.getsize(path) > 0], and the size. *)
Definition getsize (path : string) (s : Bench) : option Z :=
  match disk s !! path with
  | Some bytes => Some (Z.of_nat (length bytes))
  | None => None
  end.

(** [test_tts()] *)
Definition test_tts : IO bool :=
  print "🧪 Testing Coqui TTS..." >>
  try_catch
    (TTS <~ (fun s => (import_TTS, s)) ;;
     print "✅ TTS library imported successfully" >>
     print "🔄 Loading simple English model..." >>
     tts <~ (fun s => (TTS "tts_models/en/ljspeech/tacotron2-DDC_ph", s)) ;;
     print "✅ Model loaded successfully!" >>
     print "🎵 Testing synthesis..." >>
     temp_path <~ named_temporary_file ;;
     let text := "Hello, this is a test of Coqui TTS." in
     on_disk (tts_to_file tts text temp_path) >>
     (fun s =>
        match getsize temp_path s with
        | Some size =>
            if 0 <? size
            then (print ("✅ Audio generated successfully: " +:+ temp_path) >>
                  print ("📁 File size: " +:+ str_of_int size +:+ " bytes") >>
                  pure true) s
            else (print "❌ Audio file not created" >> pure false) s
        | None => (print "❌ Audio file not created" >> pure false) s
        end))
    (fun e =>
       match kind e with
       | ImportError =>
           Some (print ("❌ TTS library not found: " +:+ message e) >> pure false)
       | _ =>
           Some (print ("❌ TTS test failed: " +:+ message e) >> pure false)
       end).

(** The body of [if __name__ == "__main__":]. *)
Definition main : IO unit :=
  print "🚀 Simple Coqui TTS Test" >>
  print (Installer.repeat_string "=" 30) >>
  success <~ test_tts ;;
  if success then
    print (LF +:+ "🎉 Coqui TTS is working!") >>
    print "💡 Ready to use in server mode"
  else
    print (LF +:+ "❌ Coqui TTS test failed") >>
    print "💡 Check installation or try different model".

(** The run of [test_tts] in which every step succeeds, up to the check of
    the file: the library imports, the model loads, the temporary file is
    created at [path], and the synthesis returns, leaving the disk [d]. *)
Definition synthesis_ran (s : Bench) (path : string) (d : gmap string (list Byte.byte)) : Prop :=
  exists TTS tts,
    import_TTS = Returned TTS /\
    TTS "tts_models/en/ljspeech/tacotron2-DDC_ph" = Returned tts /\
    temporary_name (disk s) = Returned path /\
    tts_to_file tts "Hello, this is a test of Coqui TTS." path
      (<[path := []]> (disk s)) = (Returned tt, d).

Lemma test_tts_spec (s : Bench) :
  exists b s',
    test_tts s = (Returned b, s') /\
    (b = true <->
     exists path bytes,
       synthesis_ran s path (disk s') /\
       disk s' !! path = Some bytes /\ bytes <> []) /\
    (exists out, stdout s' = stdout s ++ out).
Proof.
  unfold test_tts, andthen, try_catch, print, named_temporary_file, on_disk,
    getsize, synthesis_ran.
  cbn [disk stdout].
  assert (Hout : forall l1 l2 : list string, exists out, l1 ++ l2 = l1 ++ out)
    by (intros l1 l2; exists l2; reflexivity).
  destruct import_TTS as [TTS|e] eqn:Ei.
  2: { destruct (kind e); eexists false, _; (split; [reflexivity|]);
         cbn [disk stdout]; rewrite <- ?app_assoc;
         (split; [|apply Hout]); (split; [discriminate|]);
         intros (p & b & (T & t & E & _) & _); discriminate E. }
  destruct (TTS "tts_models/en/ljspeech/tacotron2-DDC_ph") as [tts|e] eqn:El.
  2: { destruct (kind e); eexists false, _; (split; [reflexivity|]);
         cbn [disk stdout]; rewrite <- ?app_assoc;
         (split; [|apply Hout]); (split; [discriminate|]);
         intros (p & b & (T & t & E1 & E2 & _) & _);
         injection E1 as <-; rewrite El in E2; discriminate E2. }
  destruct (temporary_name (disk s)) as [path|e] eqn:Et.
  2: { destruct (kind e); eexists false, _; (split; [reflexivity|]);
         cbn [disk stdout]; rewrite <- ?app_assoc;
         (split; [|apply Hout]); (split; [discriminate|]);
         intros (p & b & (T & t & _ & _ & E & _) & _); discriminate E. }
  cbn [disk stdout].
  destruct (tts_to_file tts "Hello, this is a test of Coqui TTS." path
              (<[path := []]> (disk s))) as [[u|e] d] eqn:Es.
  2: { destruct (kind e); eexists false, _; (split; [reflexivity|]);
         cbn [disk stdout]; rewrite <- ?app_assoc;
         (split; [|apply Hout]); (split; [discriminate|]);
         intros (p & b & (T & t & E1 & E2 & E3 & E4) & _);
         injection E1 as <-; rewrite El in E2; injection E2 as <-;
         injection E3 as <-; rewrite Es in E4; discriminate E4. }
  cbn [disk stdout].
  destruct (d !! path) as [bytes|] eqn:Ed.
  - destruct (0 <? Z.of_nat (length bytes)) eqn:Ez.
    + eexists true, _. split; [reflexivity|]. cbn [disk stdout].
      rewrite <- ?app_assoc. split; [|apply Hout]. split; [|reflexivity].
      intros _. exists path, bytes. destruct u. split; [eauto 6|].
      split; [exact Ed|]. intros ->. discriminate Ez.
    + eexists false, _. split; [reflexivity|]. cbn [disk stdout].
      rewrite <- ?app_assoc. split; [|apply Hout]. split; [discriminate|].
      intros (p & b & (T & t & E1 & E2 & E3 & E4) & Hb & Hne).
      injection E1 as <-. rewrite El in E2. injection E2 as <-.
      injection E3 as <-. rewrite Ed in Hb. injection Hb as <-.
      destruct bytes; [destruct (Hne eq_refl) | discriminate Ez].
  - eexists false, _. split; [reflexivity|]. cbn [disk stdout].
    rewrite <- ?app_assoc. split; [|apply Hout]. split; [discriminate|].
    intros (p & b & (T & t & E1 & E2 & E3 & E4) & Hb & _).
    injection E1 as <-. rewrite El in E2. injection E2 as <-.
    injection E3 as <-. rewrite Ed in Hb. discriminate Hb.
Qed.

(** [test_tts] never raises, and it returns True exactly when the library
    imports, the model loads, the temporary file is created, the synthesis
    returns, and the file at the temporary path is then on disk and not
    empty; a failure at any step, of whatever class, and a synthesis that
    leaves the file empty or removes it, give False. *)
Theorem test_tts_passes_iff_audio_written (s : Bench) :
  exists b s',
    test_tts s = (Returned b, s') /\
    (b = true <->
     exists path bytes,
       synthesis_ran s path (disk s') /\
       disk s' !! path = Some bytes /\ bytes <> []).
Proof.
  destruct (test_tts_spec s) as (b & s' & E & Hb & _). eauto.
Qed.

(** The script ends with the lines Coqui TTS is working! and Ready to use
    in server mode only when a file that is not empty is on disk at the
    temporary path; otherwise it ends with the two lines of the failed
    test.  It never raises. *)
Theorem main_announces_success_only_with_audio (s : Bench) :
  exists s' out,
    main s = (Returned tt, s') /\
    ((stdout s' = out ++ [LF +:+ "🎉 Coqui TTS is working!";
                          "💡 Ready to use in server mode"] /\
      exists path bytes, disk s' !! path = Some bytes /\ bytes <> []) \/
     stdout s' = out ++ [LF +:+ "❌ Coqui TTS test failed";
                         "💡 Check installation or try different model"]).
Proof.
  unfold main. unfold andthen at 1. unfold andthen at 1. unfold andthen at 1.
  cbn [print fst snd].
  match goal with |- context [test_tts ?s0] =>
    destruct (test_tts_spec s0) as (b & s1 & E & Hb & _); rewrite E
  end.
  destruct b; cbn [andthen print disk stdout].
  - eexists _, (stdout s1). split; [reflexivity|]. left. cbn [stdout disk].
    split; [rewrite <- app_assoc; reflexivity|].
    destruct (proj1 Hb eq_refl) as (path & bytes & _ & Hd & Hne). eauto.
  - eexists _, (stdout s1). split; [reflexivity|]. right. cbn [stdout].
    rewrite <- app_assoc. reflexivity.
Qed.

End Bench.
End SmokeTest.

(** ** Concrete runs *)

Module MoreCases.
Import Examples.

(** A body with a language and an extra key, against the bare body. *)
Lemma answer_depends_on_text_and_speed_only_witness :
  synthesize_speech in_else_arm real_server
    {| get_json := Ok (PDict [("language", PStr "fr"); ("text", PStr "Hello");
                              ("voice", PInt 3)]) |} fresh_world
  = synthesize_speech in_else_arm real_server
      {| get_json := Ok (PDict [("text", PStr "Hello")]) |} fresh_world.
Proof.
  exact (answer_depends_on_text_and_speed_only in_else_arm real_server
           [("language", PStr "fr"); ("text", PStr "Hello"); ("voice", PInt 3)]
           [("text", PStr "Hello")] fresh_world eq_refl eq_refl).
Defined.

Lemma absent_speed_is_one_point_zero_witness :
  synthesize_speech in_else_arm real_server
    {| get_json := Ok (PDict [("text", PStr "Hello")]) |} fresh_world
  = synthesize_speech in_else_arm real_server
      {| get_json := Ok (PDict ([("text", PStr "Hello")]
                                ++ [("speed", PFloat one_point_zero)])) |}
      fresh_world.
Proof.
  exact (absent_speed_is_one_point_zero in_else_arm real_server
           [("text", PStr "Hello")] fresh_world eq_refl).
Defined.

Lemma surrounding_whitespace_is_ignored_witness :
  synthesize_speech in_else_arm real_server
    {| get_json := Ok (PDict [("text", PStr "  Hello ")]) |} fresh_world
  = synthesize_speech in_else_arm real_server
      {| get_json := Ok (PDict [("text", PStr "Hello")]) |} fresh_world.
Proof.
  exact (surrounding_whitespace_is_ignored in_else_arm real_server
           [("text", PStr "  Hello ")] [("text", PStr "Hello")]
           "  Hello " "Hello" fresh_world eq_refl eq_refl eq_refl eq_refl).
Defined.

(** The body [["text"]], a JSON array. *)
Lemma body_that_is_no_object_is_refused_witness :
  (exists msg, refused {| get_json := Ok (PList [PStr "text"]) |} (Jsonify msg 400)) \/
  (exists msg, refused {| get_json := Ok (PList [PStr "text"]) |} (Jsonify msg 500)).
Proof.
  refine (proj1 (body_that_is_no_object_is_refused
                   {| get_json := Ok (PList [PStr "text"]) |} _)).
  intros d E. discriminate E.
Defined.

Lemma handler_touches_only_its_two_paths_witness :
  files (snd (synthesize_speech after_conditional real_server hello fresh_world))
    !! "/tmp/tmpab12/coqui_tts_1.wav"
  = files fresh_world !! "/tmp/tmpab12/coqui_tts_1.wav".
Proof.
  apply (handler_touches_only_its_two_paths after_conditional real_server hello
           "Hello" 1%Q fresh_world "/tmp/tmpab12/coqui_tts_1.wav"
           Cases.hello_valid).
  - intros E. vm_compute in E. discriminate E.
  - intros E. vm_compute in E. discriminate E.
Defined.

Lemma provided_audio_is_sent_witness :
  exists wav,
    files {| files := <[mock_path mock_server "Hello" := silent_wav]> (files fresh_world);
             write_error := write_error fresh_world;
             calls := calls fresh_world ++ [CallMock "Hello"] |}
      !! mock_path mock_server "Hello" = Some wav /\
    send_audio (mock_path mock_server "Hello")
      {| files := <[mock_path mock_server "Hello" := silent_wav]> (files fresh_world);
         write_error := write_error fresh_world;
         calls := calls fresh_world ++ [CallMock "Hello"] |}
    = (Ok (SendFile wav "audio/wav" "speech.wav"),
       {| files := <[mock_path mock_server "Hello" := silent_wav]> (files fresh_world);
          write_error := write_error fresh_world;
          calls := calls fresh_world ++ [CallMock "Hello"] |}).
Proof.
  apply (provided_audio_is_sent in_else_arm mock_server "Hello" 1%Q fresh_world).
  rewrite provide_audio_without_model by reflexivity.
  apply generate_mock_audio_writes. reflexivity.
Defined.

Lemma repeated_request_without_model_witness :
  fst (synthesize_speech after_conditional mock_server hello
         (snd (synthesize_speech after_conditional mock_server hello fresh_world)))
  = fst (synthesize_speech after_conditional mock_server hello fresh_world) /\
  files (snd (synthesize_speech after_conditional mock_server hello
                (snd (synthesize_speech after_conditional mock_server hello
                        fresh_world))))
  = files (snd (synthesize_speech after_conditional mock_server hello fresh_world)).
Proof.
  exact (repeated_request_without_model after_conditional mock_server hello
           fresh_world eq_refl).
Defined.

(** A shell in which every pip command exits with an error. *)
Definition pip_always_fails (command : string) (sys : unit)
    : Script.outcome unit * unit :=
  (Script.Raised {| Script.kind := Script.CalledProcessError;
                    Script.message := "Command '" +:+ command
                                      +:+ "' returned non-zero exit status 1.";
                    Script.stderr := "ERROR: No matching distribution found" |},
   sys).

Lemma pip_always_fails_by_status :
  InstallerFacts.fails_by_status_only unit pip_always_fails.
Proof. intros command sys e sys' E. injection E as <- _. reflexivity. Qed.

(** No library to import either. *)
Definition no_library : Script.outcome Installer.TTS_class :=
  Script.Raised {| Script.kind := Script.ImportError;
                   Script.message := "No module named 'TTS'";
                   Script.stderr := "" |}.

Definition python_3_11 : Installer.Python :=
  {| Installer.major := 3; Installer.minor := 11; Installer.micro := 4;
     Installer.version_text := "3.11.4 (main, Jun  7 2023, 00:00:00) [GCC 12.2.0]" |}.

Definition clean_machine : Installer.Machine unit :=
  {| Installer.system := tt; Installer.stdout := []; Installer.commands := [] |}.

Lemma install_runs_every_pip_command_witness :
  exists b s',
    Installer.install_coqui_tts pip_always_fails python_3_11 clean_machine
    = (Script.Returned b, s') /\
    (b = true <-> InstallerFacts.recent python_3_11) /\
    Installer.commands s' = Installer.commands clean_machine ++
      (if b then ["pip3 install torch"; "pip3 install torchaudio";
                  "pip3 install TTS"; "pip3 install flask";
                  "pip3 install flask-cors"]
       else []) /\
    (b = true ->
     In (Script.LF +:+ "🎉 Installation completed!") (Installer.stdout s')) /\
    (b = false -> Installer.system s' = Installer.system clean_machine).
Proof.
  exact (InstallerFacts.install_runs_every_pip_command unit pip_always_fails
           python_3_11 clean_machine pip_always_fails_by_status).
Defined.

Lemma main_reports_ready_on_recent_python_witness :
  exists s' out,
    Installer.main pip_always_fails no_library python_3_11 clean_machine
    = (Script.Returned tt, s') /\
    (InstallerFacts.recent python_3_11 ->
     Installer.stdout s'
     = out ++ [Script.LF +:+ "🎯 Ready to start!"; "Run: python coqui_server.py"] /\
     Installer.commands s'
     = Installer.commands clean_machine ++
       map (fun package => "pip3 install " +:+ package) Installer.packages) /\
    (~ InstallerFacts.recent python_3_11 ->
     Installer.stdout s'
     = out ++ [Script.LF +:+ "❌ Installation failed";
               "💡 Try manual installation:";
               "   pip3 install TTS flask flask-cors torch torchaudio"] /\
     Installer.commands s' = Installer.commands clean_machine).
Proof.
  exact (InstallerFacts.main_reports_ready_on_recent_python unit
           pip_always_fails no_library python_3_11 clean_machine
           pip_always_fails_by_status).
Defined.

End MoreCases.
